(** * A shallow embedding of the CART storage driver (cart_driver.c,
      cart_cache.c, cart_client.c) and its specification claims. *)

From Stdlib Require Import ZArith Lia List Bool.
From Stdlib Require Import Strings.Byte.
Import ListNotations.
Open Scope Z_scope.

(** ** Constants of cart_controller.h
    The controller header is not part of the sources; the driver's own
    comment gives the allocation table as 64 x 1024 slots and the frame
    size of the assignment's controller is 1024 bytes. *)

Definition CART_MAX_CARTRIDGES : Z := 64.
Definition CART_CARTRIDGE_SIZE : Z := 1024.
Definition CART_FRAME_SIZE : Z := 1024.

(** Opcodes (the [CART_OP_*] keys carried in the KY1 field). *)
Definition CART_OP_INITMS : Z := 0.
Definition CART_OP_LDCART : Z := 1.
Definition CART_OP_BZERO  : Z := 2.
Definition CART_OP_RDFRME : Z := 3.
Definition CART_OP_WRFRME : Z := 4.
Definition CART_OP_POWOFF : Z := 5.

(** [typedef enum Flag { YES = 0, NO = 1 }] *)
Inductive Flag := YES | NO.

Definition flag_eqb (a b : Flag) : bool :=
  match a, b with
  | YES, YES | NO, NO => true
  | _, _ => false
  end.

(** uint64 / uint32 wrap-around *)
Definition wrap64 (x : Z) : Z := x mod 2 ^ 64.
Definition wrap32 (x : Z) : Z := x mod 2 ^ 32.

(** ** Opcode codec: create_cart_opcode / extract_cart_opcode *)

Definition CartXferRegister := Z.

Inductive CartRegisters :=
  CART_REG_KY1 | CART_REG_KY2 | CART_REG_RT1 | CART_REG_CT1 | CART_REG_FM1
| CART_REG_MAXVAL.

(** Every shift is a [uint64_t] shift: the result is truncated to 64 bits. *)
Definition create_cart_opcode (reg_KY1 reg_KY2 reg_RET reg_CART reg_FRAME reg_RESV : Z)
  : CartXferRegister :=
  let ky1   := wrap64 (Z.shiftl reg_KY1 56) in
  let ky2   := wrap64 (Z.shiftl reg_KY2 48) in
  let ret   := wrap64 (Z.shiftl reg_RET 47) in
  let cart  := wrap64 (Z.shiftl reg_CART 31) in
  let frame := wrap64 (Z.shiftl reg_FRAME 15) in
  let resv  := wrap64 reg_RESV in
  Z.lor ky1 (Z.lor ky2 (Z.lor ret (Z.lor cart (Z.lor frame resv)))).

(** The [default] branch only logs and returns the register unchanged. *)
Definition extract_cart_opcode (resp : CartXferRegister) (reg_field : CartRegisters) : Z :=
  match reg_field with
  | CART_REG_KY1 => Z.shiftr resp 56
  | CART_REG_KY2 => Z.land (Z.shiftr resp 48) 255
  | CART_REG_RT1 => Z.land (Z.shiftr resp 47) 1
  | CART_REG_CT1 => Z.land (Z.shiftr resp 31) 65535
  | CART_REG_FM1 => Z.land (Z.shiftr resp 15) 65535
  | CART_REG_MAXVAL => resp
  end.

(** ** Byte buffers and the C string functions the sources apply to them *)

Definition bytes := list byte.

Definition zeros (n : nat) : bytes := repeat x00 n.

(** [strlen]: bytes before the first NUL.  A buffer with no NUL is read up
    to its end (the C code would read past it). *)
Fixpoint strlen (s : bytes) : nat :=
  match s with
  | [] => O
  | b :: t => if Byte.eqb b x00 then O else S (strlen t)
  end.

(** [strncpy(dst, src, n)]: the bytes of [src] up to its first NUL, then NUL
    padding, [n] bytes in all.  The end of [src] counts as its terminator. *)
Fixpoint strncpy_n (n : nat) (src : bytes) : bytes :=
  match n with
  | O => []
  | S n' =>
      match src with
      | [] => x00 :: strncpy_n n' []
      | b :: t => if Byte.eqb b x00 then x00 :: strncpy_n n' [] else b :: strncpy_n n' t
      end
  end.

(** [strncmp(a, b, n) == 0]; a missing byte reads as NUL. *)
Fixpoint strncmp_eq (n : nat) (a b : bytes) : bool :=
  match n with
  | O => true
  | S n' =>
      let (x, a') := match a with [] => (x00, []) | x :: t => (x, t) end in
      let (y, b') := match b with [] => (x00, []) | y :: t => (y, t) end in
      if Byte.eqb x y then (if Byte.eqb x x00 then true else strncmp_eq n' a' b')
      else false
  end.

(** [memcpy(&dst[off], src, n)]: overwrite [n] bytes of [dst] from [off];
    a destination shorter than [off + n] is extended (with NUL bytes up to
    [off]). *)
Definition write_at {A} (fill : A) (dst : list A) (off : nat) (src : list A) (n : nat) : list A :=
  let s := firstn n src in
  firstn off dst ++ repeat fill (off - length dst) ++ s ++ skipn (off + length s) dst.

Definition memcpy_at (dst : bytes) (off : nat) (src : bytes) (n : nat) : bytes :=
  write_at x00 dst off src n.

(** Bytes [off .. off+n-1] of a buffer. *)
Definition slice {A} (buf : list A) (off n : nat) : list A := firstn n (skipn off buf).

Definition FRAME_BYTES : nat := Z.to_nat CART_FRAME_SIZE.

(** ** Frame cache: cart_cache.c *)

Module Cache.

Record CacheTable := mkCacheTable {
  cachedFrame : bytes;
  cacheHandle : Z;
  cartIndex   : Z;
  frameIndex  : Z;
  isUsed      : Flag;
  lru         : Z
}.

(** The globals of cart_cache.c; [cacheMemory = None] is the NULL pointer. *)
Record CacheState := mkCacheState {
  cacheMemory       : option (list CacheTable);
  last_cached_frame : bytes;
  cacheSize         : Z;
  cacheInit         : Flag;
  lruCounter        : Z
}.

Definition CACHE_MAX_OPEN_FILES : Z := 128.

Definition initial_cache : CacheState :=
  mkCacheState None (zeros FRAME_BYTES) 0 NO 0.

Definition mem (c : CacheState) : list CacheTable :=
  match cacheMemory c with Some m => m | None => [] end.

Definition with_mem (c : CacheState) (m : list CacheTable) : CacheState :=
  mkCacheState (Some m) (last_cached_frame c) (cacheSize c) (cacheInit c) (lruCounter c).

Definition tick (c : CacheState) : CacheState :=
  mkCacheState (cacheMemory c) (last_cached_frame c) (cacheSize c) (cacheInit c)
    (lruCounter c + 1).

(** A zeroed slot, as written by init, close and delete. *)
Definition zeroed_entry : CacheTable :=
  mkCacheTable (strncpy_n FRAME_BYTES []) 0 0 0 NO (-1).

Definition create_cache_tag (cart frame : Z) : Z :=
  wrap32 (Z.lor (wrap32 (Z.shiftl cart 16)) frame).

Definition set_cart_cache_size (max_frames : Z) (c : CacheState) : Z * CacheState :=
  if CACHE_MAX_OPEN_FILES <? max_frames then (-1, c)
  else if max_frames =? 0 then (-1, c)
  else (0, mkCacheState (cacheMemory c) (last_cached_frame c) max_frames
                        (cacheInit c) (lruCounter c)).

Definition init_cart_cache (c : CacheState) : Z * CacheState :=
  match cacheInit c, cacheMemory c with
  | YES, _ => (-1, c)
  | NO, Some _ => (-1, c)
  | NO, None =>
      (0, mkCacheState (Some (repeat zeroed_entry (Z.to_nat (cacheSize c))))
                       (last_cached_frame c) (cacheSize c) YES (lruCounter c))
  end.

(** [close_cart_cache]: the slots are zeroed and the array freed
    ([cacheMemory = NULL]); [cacheInit] is left as it is.  The zeroing loop
    writes to memory that is freed right after, so only the NULL pointer is
    observable.  (With [cacheMemory] already NULL and [cacheSize > 0] the C
    loop writes through NULL; the model covers the initialised case.) *)
Definition close_cart_cache (c : CacheState) : Z * CacheState :=
  (0, mkCacheState None (last_cached_frame c) (cacheSize c) (cacheInit c) (lruCounter c)).

(** First slot index satisfying [p]. *)
Fixpoint find_index {A} (p : A -> bool) (l : list A) : option nat :=
  match l with
  | [] => None
  | x :: t => if p x then Some O else option_map S (find_index p t)
  end.

Fixpoint update_nth {A} (n : nat) (f : A -> A) (l : list A) : list A :=
  match l, n with
  | [], _ => []
  | x :: t, O => f x :: t
  | x :: t, S n' => x :: update_nth n' f t
  end.

(** [delete_cart_cache]: the first slot whose tag matches is wiped. *)
Definition delete_cart_cache (cart blk : Z) (c0 : CacheState) : option bytes * CacheState :=
  let c := tick c0 in
  let tag := create_cache_tag cart blk in
  match find_index (fun e => cacheHandle e =? tag) (mem c) with
  | Some i =>
      let saved := firstn FRAME_BYTES (cachedFrame (nth i (mem c) zeroed_entry)) in
      let m := update_nth i (fun _ => zeroed_entry) (mem c) in
      (Some saved,
       mkCacheState (Some m) saved (cacheSize c) (cacheInit c) (lruCounter c))
  | None => (None, c)
  end.

(** The ejection scan: start from slot 0, keep a slot only when its
    counter is strictly smaller. Returns the (cart, frame) it selected. *)
Definition lru_victim (m : list CacheTable) : Z * Z :=
  match m with
  | [] => (0, 0)
  | e0 :: _ =>
      let '(_, c, f) :=
        fold_left (fun '(l, c, f) e =>
                     if lru e <? l then (lru e, cartIndex e, frameIndex e) else (l, c, f))
                  m (lru e0, cartIndex e0, frameIndex e0) in
      (c, f)
  end.

(** The [search] / eject / [goto search] loop of [put_cart_cache]. *)
Fixpoint put_search (fuel : nat) (cart frm tag : Z) (buf : bytes) (c : CacheState)
  : Z * CacheState :=
  match find_index (fun e => flag_eqb (isUsed e) NO) (mem c) with
  | Some i =>
      (0, with_mem c (update_nth i (fun _ =>
             mkCacheTable (strncpy_n FRAME_BYTES buf) tag cart frm YES (lruCounter c)) (mem c)))
  | None =>
      if cacheSize c =? 0 then (0, c)
      else
        let '(vc, vf) := lru_victim (mem c) in
        match delete_cart_cache vc vf c with
        | (None, c') => (-1, c')
        | (Some _, c') =>
            match fuel with
            | O => (0, c')
            | S fuel' => put_search fuel' cart frm tag buf c'
            end
        end
  end.

(** After one ejection the search finds the freed slot, so one retry is
    all the loop ever runs. *)
Definition put_cart_cache (cart frm : Z) (buf : bytes) (c0 : CacheState) : Z * CacheState :=
  let c := tick c0 in
  put_search (S (length (mem c))) cart frm (create_cache_tag cart frm) buf c.

(** [get_cart_cache]: the first slot whose tag matches; its counter is
    refreshed and its frame returned. *)
Definition get_cart_cache (cart frm : Z) (c0 : CacheState) : option bytes * CacheState :=
  let c := tick c0 in
  let tag := create_cache_tag cart frm in
  match find_index (fun e => cacheHandle e =? tag) (mem c) with
  | Some i =>
      let e := nth i (mem c) zeroed_entry in
      (Some (cachedFrame e),
       with_mem c (update_nth i (fun e =>
          mkCacheTable (cachedFrame e) (cacheHandle e) (cartIndex e) (frameIndex e)
                       (isUsed e) (lruCounter c)) (mem c)))
  | None => (None, c)
  end.

(** The occupied slots in slot order: address and stored C string. *)
Definition occupied (c : CacheState) : list (Z * Z * bytes) :=
  map (fun e => (cartIndex e, frameIndex e, firstn (strlen (cachedFrame e)) (cachedFrame e)))
      (filter (fun e => flag_eqb (isUsed e) YES) (mem c)).

Definition fresh_cache (n : Z) : CacheState :=
  snd (init_cart_cache (snd (set_cart_cache_size n initial_cache))).

(** The counters of all slots, in slot order. *)
Definition counters (c : CacheState) : list Z := map lru (mem c).

End Cache.

Import Cache.

Definition bA : bytes := [x41]. (* "A" *)
Definition bB : bytes := [x42]. (* "B" *)
Definition bC : bytes := [x43]. (* "C" *)

(** The scenario of the spec on a capacity-2 cache. *)
Definition c4_scenario_state : CacheState :=
  let c := fresh_cache 2 in
  let c := snd (put_cart_cache 0 0 bA c) in
  let c := snd (put_cart_cache 0 1 bB c) in
  snd (get_cart_cache 0 0 c).

(** Two puts of one address, then a get of it: the get refreshes only the
    first slot holding the address. *)
Definition c4_dup_state : CacheState :=
  let c := fresh_cache 2 in
  let c := snd (put_cart_cache 0 1 bA c) in
  let c := snd (put_cart_cache 0 1 bB c) in
  snd (get_cart_cache 0 1 c).

(** ** Transport client: cart_client.c *)

Module Client.

(** Network byte order: the 8 bytes of a 64-bit value, most significant
    first ([htonll64] then the in-memory bytes of [value]). *)
Definition be64 (x : Z) : bytes :=
  map (fun i => match Byte.of_N (Z.to_N (Z.land (Z.shiftr x (8 * (7 - Z.of_nat i))) 255)) with
                | Some b => b | None => x00 end) (seq 0 8).

(** [ntohll64] of the 8 bytes read into [value]. *)
Definition from_be64 (bs : bytes) : Z :=
  fold_left (fun acc b => acc * 256 + Z.of_N (Byte.to_N b)) bs 0.

(** The one connection the process can have: [socket()] hands out the
    descriptor [SOCKET_FD]. [sent] holds every byte the client has written to
    the connection, [inbox] the bytes the server has sent and the client has
    not read yet. *)
Definition SOCKET_FD : Z := 3.

Record Conn := mkConn {
  conn_open : bool;
  sent      : bytes;
  inbox     : bytes
}.

(** The globals of cart_client.c. [client_socket] is initialised to -1 and
    no statement of the file assigns it. *)
Record ClientState := mkClient {
  client_socket : Z;
  initialized   : Flag;
  conn          : Conn
}.

Definition live (fd : Z) (k : Conn) : bool := (fd =? SOCKET_FD) && conn_open k.

(** [write(fd, data, n)]: -1 on a descriptor that is not the live socket. *)
Definition os_write (fd : Z) (data : bytes) (k : Conn) : Z * Conn :=
  if live fd k then (Z.of_nat (length data), mkConn (conn_open k) (sent k ++ data) (inbox k))
  else (-1, k).

(** [read(fd, _, n)]: up to [n] bytes of what the server has sent. *)
Definition os_read (fd : Z) (n : nat) (k : Conn) : Z * bytes * Conn :=
  if live fd k then
    let got := firstn n (inbox k) in
    (Z.of_nat (length got), got, mkConn (conn_open k) (sent k) (skipn n (inbox k)))
  else (-1, [], k).

(** [(CartXferRegister)-1] *)
Definition FAIL : Z := wrap64 (-1).

(** Sending the request register and the 8-byte length field
    (the two [write] calls opening every case). *)
Definition send_header (fd reg len : Z) (k : Conn) : option Conn :=
  let '(n1, k1) := os_write fd (be64 reg) k in
  if negb (n1 =? 8) then None else
  let '(n2, k2) := os_write fd (be64 len) k1 in
  if negb (n2 =? 8) then None else Some k2.

(** Receiving the response register and the length field. *)
Definition recv_header (fd : Z) (k : Conn) : option (Z * Z * Conn) :=
  let '(n1, v1, k1) := os_read fd 8 k in
  if negb (n1 =? 8) then None else
  let '(n2, v2, k2) := os_read fd 8 k1 in
  if negb (n2 =? 8) then None else Some (from_be64 v1, from_be64 v2, k2).

(** [if (value > 0) read(socket_fd, buf, CART_FRAME_SIZE)] *)
Definition recv_payload (fd len : Z) (buf : bytes) (k : Conn) : option (bytes * Conn) :=
  if 0 <? len then
    let '(n, got, k') := os_read fd FRAME_BYTES k in
    if negb (n =? CART_FRAME_SIZE) then None
    else Some (memcpy_at buf 0 got (length got), k')
  else Some (buf, k).

(** Outcome of one exchange: the response register, or a failure
    ([return(-1)]) at the point reached. *)
Inductive xfer := XOk (resp : Z) (buf : bytes) (k : Conn) | XErr (buf : bytes) (k : Conn).

Definition xfer_conn (x : xfer) : Conn := match x with XOk _ _ k | XErr _ k => k end.

Definition xfer_result (x : xfer) : Z * bytes * Conn :=
  match x with XOk resp buf k => (resp, buf, k) | XErr buf k => (FAIL, buf, k) end.

(** INIT, BZERO and LDCART: no payload either way, length must come back 0. *)
Definition exchange_nopayload (fd reg : Z) (buf : bytes) (k : Conn) : xfer :=
  match send_header fd reg 0 k with
  | None => XErr buf k
  | Some k1 =>
      match recv_header fd k1 with
      | None => XErr buf k1
      | Some (resp, len, k2) => if negb (len =? 0) then XErr buf k2 else XOk resp buf k2
      end
  end.

(** RDFRME, POWOFF (before its [close]) and the default case. *)
Definition exchange_read (fd reg : Z) (buf : bytes) (k : Conn) : xfer :=
  match send_header fd reg 0 k with
  | None => XErr buf k
  | Some k1 =>
      match recv_header fd k1 with
      | None => XErr buf k1
      | Some (resp, len, k2) =>
          match recv_payload fd len buf k2 with
          | None => XErr buf k2
          | Some (buf', k3) => XOk resp buf' k3
          end
      end
  end.

(** WRFRME: after the two header writes the payload step is
    [read(socket_fd, buf, CART_FRAME_SIZE)]. *)
Definition exchange_write (fd reg : Z) (buf : bytes) (k : Conn) : xfer :=
  match send_header fd reg CART_FRAME_SIZE k with
  | None => XErr buf k
  | Some k1 =>
      let '(n, got, k2) := os_read fd FRAME_BYTES k1 in
      let buf1 := memcpy_at buf 0 got (length got) in
      if negb (n =? CART_FRAME_SIZE) then XErr buf1 k2 else
      match recv_header fd k2 with
      | None => XErr buf1 k2
      | Some (resp, len, k3) =>
          match recv_payload fd len buf1 k3 with
          | None => XErr buf1 k3
          | Some (buf', k4) => XOk resp buf' k4
          end
      end
  end.

(** [close(fd)] *)
Definition os_close (fd : Z) (k : Conn) : Conn :=
  if live fd k then mkConn false (sent k) (inbox k) else k.

Definition client_cart_bus_request (reg : Z) (buf : bytes) (st : ClientState)
  : Z * bytes * ClientState :=
  let socket_fd := client_socket st in
  let request := extract_cart_opcode reg CART_REG_KY1 mod 256 in
  let keep (x : xfer) :=
    let '(resp, buf', k) := xfer_result x in
    (resp, buf', mkClient (client_socket st) (initialized st) k) in
  if negb (socket_fd =? -1) then (FAIL, buf, st)
  else if request =? CART_OP_INITMS then
    (* the connect loop runs only while [initialized == NO]; the descriptor
       goes to the local [socket_fd] *)
    let '(fd, k0) :=
      match initialized st with
      | NO => (SOCKET_FD, mkConn true (sent (conn st)) (inbox (conn st)))
      | YES => (socket_fd, conn st)
      end in
    let '(resp, buf', k) := xfer_result (exchange_nopayload fd reg buf k0) in
    (resp, buf', mkClient (client_socket st) YES k)
  else if (request =? CART_OP_BZERO) || (request =? CART_OP_LDCART) then
    keep (exchange_nopayload socket_fd reg buf (conn st))
  else if request =? CART_OP_RDFRME then
    keep (exchange_read socket_fd reg buf (conn st))
  else if request =? CART_OP_WRFRME then
    keep (exchange_write socket_fd reg buf (conn st))
  else if request =? CART_OP_POWOFF then
    match exchange_read socket_fd reg buf (conn st) with
    | XOk resp buf' k =>
        (resp, buf', mkClient (client_socket st) (initialized st) (os_close socket_fd k))
    | x => keep x
    end
  else keep (exchange_read socket_fd reg buf (conn st)).

Definition initial_client : ClientState := mkClient (-1) NO (mkConn false [] []).

(** The client after a first INIT request from its initial state. *)
Definition after_init : ClientState :=
  snd (client_cart_bus_request (create_cart_opcode CART_OP_INITMS 0 0 0 0 0) [] initial_client).

End Client.

(** ** File store and allocation table: cart_driver.c *)

(** The transport seen from the driver: [client_cart_bus_request] together
    with the CART controller at the other end of the connection, as a
    request register and a frame buffer in, a response register and the
    buffer as the call leaves it out. *)
Class CartBus (D : Type) := bus_request : Z -> bytes -> D -> Z * bytes * D.

Module Driver.

Record FileSystem := mkFS {
  filename     : bytes;
  filehandle   : Z;
  fileposition : Z;
  filelength   : Z;
  cartIndex    : Z;
  frameIndex   : Z;
  openfile     : Flag;
  incart       : Flag
}.

Record FileTable := mkFT {
  ft_filehandle : Z;
  isused        : Flag
}.

(** An entry as [cart_poweron] and [allocateNewFile] initialise it. *)
Definition closed_entry : FileSystem := mkFS [] (-1) 0 0 0 0 NO NO.

Definition unused_slot : FileTable := mkFT (-1) NO.

(** [fileSystem] (with [numFiles] its length), [fileTable], the cache
    globals and the device. *)
Record DriverState (D : Type) := mkDS {
  fileSystem : list FileSystem;
  fileTable  : Z -> Z -> FileTable;
  cache      : CacheState;
  device     : D
}.
Arguments mkDS {D}.
Arguments fileSystem {D}.
Arguments fileTable {D}.
Arguments cache {D}.
Arguments device {D}.

Definition zseq (n : Z) : list Z := map Z.of_nat (seq 0 (Z.to_nat n)).

(** The slots in the driver's scan order: cartridge-major, frame-minor. *)
Definition all_slots : list (Z * Z) :=
  flat_map (fun i => map (fun j => (i, j)) (zseq CART_CARTRIDGE_SIZE)) (zseq CART_MAX_CARTRIDGES).

Section Ops.

Context {D : Type} `{CartBus D}.

Definition numFiles (st : DriverState D) : Z := Z.of_nat (length (fileSystem st)).

Definition get_fs (st : DriverState D) (fd : Z) : FileSystem :=
  nth (Z.to_nat fd) (fileSystem st) closed_entry.

Definition set_fs (st : DriverState D) (fd : Z) (e : FileSystem) : DriverState D :=
  mkDS (update_nth (Z.to_nat fd) (fun _ => e) (fileSystem st)) (fileTable st) (cache st) (device st).

Definition set_table (st : DriverState D) (c f : Z) (e : FileTable) : DriverState D :=
  mkDS (fileSystem st)
       (fun c' f' => if (c' =? c) && (f' =? f) then e else fileTable st c' f')
       (cache st) (device st).

Definition set_cache (st : DriverState D) (c : CacheState) : DriverState D :=
  mkDS (fileSystem st) (fileTable st) c (device st).

Definition set_device (st : DriverState D) (d : D) : DriverState D :=
  mkDS (fileSystem st) (fileTable st) (cache st) d.

Definition with_pos_len (e : FileSystem) (pos len : Z) : FileSystem :=
  mkFS (filename e) (filehandle e) pos len (cartIndex e) (frameIndex e) (openfile e) (incart e).

Definition with_location (e : FileSystem) (c f : Z) (inc : Flag) : FileSystem :=
  mkFS (filename e) (filehandle e) (fileposition e) (filelength e) c f (openfile e) inc.

(** A bus request on the driver state. *)
Definition bus (reg : Z) (buf : bytes) (st : DriverState D) : Z * bytes * DriverState D :=
  let '(resp, buf', d) := bus_request reg buf (device st) in
  (resp, buf', set_device st d).

Definition rt1_ok (resp : Z) : bool := extract_cart_opcode resp CART_REG_RT1 =? 0.

Definition load_this_cart (cart : Z) (st : DriverState D) : Z * DriverState D :=
  let '(resp, _, st') := bus (create_cart_opcode CART_OP_LDCART 0 0 cart 0 0) [] st in
  (if rt1_ok resp then 0 else -1, st').

(** The first slot whose [isused] is [NO], in scan order. *)
Definition find_free (st : DriverState D) : option (Z * Z) :=
  find (fun '(i, j) => flag_eqb (isused (fileTable st i j)) NO) all_slots.

Definition count_free (st : DriverState D) : Z :=
  Z.of_nat (length (filter (fun '(i, j) => flag_eqb (isused (fileTable st i j)) NO) all_slots)).

Definition owned_by (st : DriverState D) (fd : Z) : list (Z * Z) :=
  filter (fun '(i, j) => (ft_filehandle (fileTable st i j) =? fd)
                          && flag_eqb (isused (fileTable st i j)) YES) all_slots.

Definition get_num_pieces (fd : Z) (st : DriverState D) : Z :=
  if filelength (get_fs st fd) <? 1 then -1 else Z.of_nat (length (owned_by st fd)).

(** [get_file_pieces]: NULL ([None]) for an empty file, else the owned slots. *)
Definition get_file_pieces (fd : Z) (st : DriverState D) : option (list (Z * Z)) :=
  if filelength (get_fs st fd) <? 1 then None else Some (owned_by st fd).

Definition ceil_div (a b : Z) : Z := (a + b - 1) / b.

(** [check_table_space]; [uint32_t] sums wrap. *)
Definition check_table_space (fd count : Z) (st : DriverState D) : Z :=
  let e := get_fs st fd in
  if wrap32 (fileposition e + count) <=? filelength e then 0
  else
    let length := wrap32 (filelength e + count) in
    let new_frames_needed := ceil_div length CART_FRAME_SIZE in
    if count_free st <? new_frames_needed then -1 else 0.

(** [allocateNewFile] *)
Definition allocateNewFile (st : DriverState D) : DriverState D :=
  mkDS (fileSystem st ++ [closed_entry]) (fileTable st) (cache st) (device st).

(** One pass of the [check_file_system] loop of [cart_open]: for each entry in
    order, a matching name rejects the path, a closed entry is taken. *)
Fixpoint open_pass (path : bytes) (path_length : nat) (i : nat) (l : list FileSystem)
  : option (option nat) :=
  match l with
  | [] => None
  | e :: t =>
      if strncmp_eq path_length path (filename e) then Some None
      else if flag_eqb (openfile e) NO then Some (Some i)
      else open_pass path path_length (S i) t
  end.

Fixpoint open_loop (fuel : nat) (path : bytes) (st : DriverState D) : Z * DriverState D :=
  let path_length := S (strlen path) in
  match open_pass path path_length O (fileSystem st) with
  | Some None => (-1, st)
  | Some (Some i) =>
      let e := nth i (fileSystem st) closed_entry in
      let fd := Z.of_nat i in
      (fd, set_fs st fd (mkFS (memcpy_at (filename e) 0 (strncpy_n path_length path) path_length)
                              fd 0 0 0 0 YES (incart e)))
  | None =>
      match fuel with
      | O => (-1, st)
      | S fuel' => open_loop fuel' path (allocateNewFile st)
      end
  end.

(** [cart_open]; after [allocateNewFile] the rescan reaches the new closed
    entry, so one retry is all the loop runs. *)
Definition cart_open (path : bytes) (st : DriverState D) : Z * DriverState D :=
  open_loop 1 path st.

Definition is_open (e : FileSystem) : bool := (0 <=? filehandle e) && flag_eqb (openfile e) YES.

(** [*(filename) = '\0'] *)
Definition nul_first (s : bytes) : bytes :=
  match s with [] => [] | _ :: t => x00 :: t end.

Definition cart_close (fd : Z) (st : DriverState D) : Z * DriverState D :=
  let e := get_fs st fd in
  if is_open e then
    (0, set_fs st fd (mkFS (nul_first (filename e)) (-1) 0 0 0 0 NO (incart e)))
  else (-1, st).

(** [cart_seek]; [loc] is a [uint32_t]. *)
Definition cart_seek (fd loc : Z) (st : DriverState D) : Z * DriverState D :=
  let e := get_fs st fd in
  if (loc <? 0) || (filelength e <? loc) then (-1, st)
  else (0, set_fs st fd (with_pos_len e loc (filelength e))).

Definition poweron_table : Z -> Z -> FileTable := fun _ _ => unused_slot.

(** The LOAD / ZERO loop of [cart_poweron]. *)
Fixpoint zero_carts (carts : list Z) (st : DriverState D) : Z * DriverState D :=
  match carts with
  | [] => (0, st)
  | i :: t =>
      let '(resp, _, st) := bus (create_cart_opcode CART_OP_LDCART 0 0 i 0 0) [] st in
      if negb (rt1_ok resp) then (-1, st) else
      let '(resp, _, st) := bus (create_cart_opcode CART_OP_BZERO 0 0 0 0 0) [] st in
      if negb (rt1_ok resp) then (-1, st) else zero_carts t st
  end.

(** [cart_poweron] from a process start ([numFiles == 0]).  [numFiles] is
    the length of [fileSystem] here, so the [++numFiles] that the source
    performs before returning -1 when [numFiles != 0] is not represented;
    the model leaves the state as it is on that path. *)
Definition cart_poweron (st : DriverState D) : Z * DriverState D :=
  let '(cacheResp, c) := init_cart_cache (cache st) in
  let st := set_cache st c in
  if negb (cacheResp =? 0) then (-1, st)
  else if negb (numFiles st =? 0) then (-1, st)
  else
    let st := mkDS [closed_entry] poweron_table (cache st) (device st) in
    let '(resp, _, st) := bus (create_cart_opcode CART_OP_INITMS 0 0 0 0 0) [] st in
    if negb (rt1_ok resp) then (-1, st) else zero_carts (zseq CART_MAX_CARTRIDGES) st.

(** [cart_poweroff]: the cache is closed, every entry of [fileSystem] is
    reset (the array and [numFiles] are kept), every table slot marked
    unused, then the POWOFF request is sent. *)
Definition cart_poweroff (st : DriverState D) : Z * DriverState D :=
  let '(cacheResp, c) := close_cart_cache (cache st) in
  let st := set_cache st c in
  if negb (cacheResp =? 0) then (-1, st) else
  let st := mkDS (map (fun _ => closed_entry) (fileSystem st)) poweron_table (cache st) (device st) in
  let '(resp, _, st) := bus (create_cart_opcode CART_OP_POWOFF 0 0 0 0 0) [] st in
  (if rt1_ok resp then 0 else -1, st).

(** The [read_file_frame] loop of [cart_read]: [file_frames] frames, the
    cache first.  On a hit [the_cart]/[the_frame] stay as they were.  The
    local file buffer is a variable-length array: [None] marks a byte the
    loop has not written.  The frame buffer [cart_buffer] is uninitialised
    in the source; the model passes a zeroed frame to every read request,
    where the source passes the buffer as the previous request left it
    (the two differ only for a reply that does not fill the buffer). *)
Fixpoint read_frames (file_frames : nat) (tempFile : list (Z * Z)) (the_cart the_frame : Z)
  (iteration : nat) (local : list (option byte)) (st : DriverState D)
  : bool * list (option byte) * DriverState D :=
  match file_frames with
  | O => (true, local, st)
  | S ff =>
      let '(hit, c) := get_cart_cache the_cart the_frame (cache st) in
      let st := set_cache st c in
      match hit with
      | Some cache_buffer =>
          let length := strlen cache_buffer in
          read_frames ff tempFile the_cart the_frame (S iteration)
            (write_at None local (iteration * FRAME_BYTES) (map Some cache_buffer) length) st
      | None =>
          let '(pc, pf) := nth iteration tempFile (0, 0) in
          let '(the_cart, st) :=
            if negb (the_cart =? pc) then (pc, snd (load_this_cart pc st)) else (the_cart, st) in
          let the_frame := pf in
          let '(resp, cart_buffer, st) :=
            bus (create_cart_opcode CART_OP_RDFRME 0 0 0 the_frame 0) (zeros FRAME_BYTES) st in
          if negb (rt1_ok resp) then (false, local, st) else
          let length := strlen cart_buffer in
          read_frames ff tempFile the_cart the_frame (S iteration)
            (write_at None local (iteration * FRAME_BYTES) (map Some cart_buffer) length) st
      end
  end.

(** [cart_read]: the return value, the bytes copied into the caller's
    buffer and the new state. *)
Definition cart_read (fd count : Z) (st : DriverState D) : Z * list (option byte) * DriverState D :=
  if count <? 0 then (-1, [], st) else
  let e := get_fs st fd in
  if (filehandle e <? 0) || flag_eqb (openfile e) NO then (-1, [], st) else
  if negb ((0 <? numFiles st) && (filehandle e =? fd)) then (-1, [], st) else
  let file_occurrences := get_num_pieces fd st in
  match get_file_pieces fd st with
  | None => (-1, [], st)
  | Some tempFile =>
      let '(c0, f0) := nth 0 tempFile (0, 0) in
      let st := snd (load_this_cart c0 st) in
      let '(ok, local, st) :=
        read_frames (Z.to_nat file_occurrences) tempFile c0 f0 0
                    (repeat None (Z.to_nat (filelength e))) st in
      if negb ok then (-1, [], st) else
      let pos := fileposition e in
      let len := filelength e in
      let return_count := wrap32 (len - pos) in
      if count <=? return_count then
        (count, slice local (Z.to_nat pos) (Z.to_nat count),
         set_fs st fd (with_pos_len e (wrap32 (pos + count)) len))
      else if return_count =? 0 then (-1, [], st)
      else (return_count, slice local (Z.to_nat pos) (Z.to_nat return_count),
            set_fs st fd (with_pos_len e len len))
  end.

(** The next free slot, or the current one when the table is full. *)
Definition next_slot (st : DriverState D) (c f : Z) : Z * Z :=
  match find_free st with Some (i, j) => (i, j) | None => (c, f) end.

(** The [cart_info_found] loop of a first write.  [cart_buffer] is not
    cleared between frames. *)
Fixpoint first_write_loop (fuel : nat) (fd count : Z) (buf : bytes) (counter : Z)
  (iteration : nat) (the_cart the_frame : Z) (cart_buffer : bytes) (st : DriverState D)
  : Z * DriverState D :=
  if counter <=? 0 then (count, st) else
  match fuel with
  | O => (count, st)
  | S fuel' =>
      let src := skipn (iteration * FRAME_BYTES) buf in
      let '(cart_buffer, counter) :=
        if counter <=? CART_FRAME_SIZE then (memcpy_at cart_buffer 0 src (Z.to_nat counter), 0)
        else (memcpy_at cart_buffer 0 src FRAME_BYTES, counter - CART_FRAME_SIZE) in
      let st := snd (load_this_cart the_cart st) in
      let '(resp, cart_buffer, st) :=
        bus (create_cart_opcode CART_OP_WRFRME 0 0 0 the_frame 0) cart_buffer st in
      if negb (rt1_ok resp) then (-1, st) else
      let '(cacheResp, c) := put_cart_cache the_cart the_frame cart_buffer (cache st) in
      let st := set_cache st c in
      if negb (cacheResp =? 0) then (-1, st) else
      let st_opt :=
        if Nat.eqb iteration 0 then
          Some (set_table (set_fs st fd (with_location (get_fs st fd) the_cart the_frame YES))
                          the_cart the_frame (mkFT fd YES))
        else if (the_cart =? 0) || (the_frame =? 0) then None
        else if (the_cart =? CART_MAX_CARTRIDGES) || (the_frame =? CART_CARTRIDGE_SIZE) then None
        else Some (set_table st the_cart the_frame (mkFT fd YES)) in
      match st_opt with
      | None => (-1, st)
      | Some st =>
          let st := set_fs st fd (with_pos_len (get_fs st fd) count count) in
          let '(the_cart, the_frame) := next_slot st the_cart the_frame in
          first_write_loop fuel' fd count buf counter (S iteration) the_cart the_frame cart_buffer st
      end
  end.

(** The read-back loop of a successive write: every frame of the file is
    read into the local buffer and its slot marked unused. *)
Fixpoint readback_loop (fuel : nat) (tempFile : list (Z * Z)) (counter : Z) (iteration : nat)
  (the_cart the_frame : Z) (cart_buffer local : bytes) (st : DriverState D)
  : option (bytes * Z * Z) * DriverState D :=
  if counter <=? 0 then (Some (local, the_cart, the_frame), st) else
  match fuel with
  | O => (Some (local, the_cart, the_frame), st)
  | S fuel' =>
      let '(pc, pf) := nth iteration tempFile (0, 0) in
      let '(the_cart, st) :=
        if negb (pc =? the_cart) then (pc, snd (load_this_cart pc st)) else (the_cart, st) in
      let the_frame := pf in
      let '(resp, cart_buffer, st) :=
        bus (create_cart_opcode CART_OP_RDFRME 0 0 0 the_frame 0) cart_buffer st in
      if negb (rt1_ok resp) then (None, st) else
      let st := set_table st the_cart the_frame
                  (mkFT (ft_filehandle (fileTable st the_cart the_frame)) NO) in
      let local :=
        if CART_FRAME_SIZE <=? counter
        then memcpy_at local (iteration * FRAME_BYTES) cart_buffer FRAME_BYTES
        else memcpy_at local (iteration * FRAME_BYTES) cart_buffer (Z.to_nat counter) in
      readback_loop fuel' tempFile (counter - CART_FRAME_SIZE) (S iteration)
                    the_cart the_frame cart_buffer local st
  end.

(** The [cart_write_back] loop of a successive write. *)
Fixpoint writeback_loop (fuel : nat) (fd : Z) (local : bytes) (counter : Z) (iteration : nat)
  (the_cart the_frame : Z) (st : DriverState D) : bool * DriverState D :=
  if counter <=? 0 then (true, st) else
  match fuel with
  | O => (true, st)
  | S fuel' =>
      let src := skipn (iteration * FRAME_BYTES) local in
      let '(cart_buffer, counter) :=
        if counter <=? CART_FRAME_SIZE
        then (memcpy_at (zeros FRAME_BYTES) 0 src (Z.to_nat counter), 0)
        else (memcpy_at (zeros FRAME_BYTES) 0 src FRAME_BYTES, counter - CART_FRAME_SIZE) in
      let st := snd (load_this_cart the_cart st) in
      let '(resp, cart_buffer, st) :=
        bus (create_cart_opcode CART_OP_WRFRME 0 0 0 the_frame 0) cart_buffer st in
      if negb (rt1_ok resp) then (false, st) else
      let '(cacheResp, c) := put_cart_cache the_cart the_frame cart_buffer (cache st) in
      let st := set_cache st c in
      if negb (cacheResp =? 0) then (false, st) else
      let st_opt :=
        if Nat.eqb iteration 0 then
          Some (set_table (set_fs st fd (with_location (get_fs st fd) the_cart the_frame
                                           (incart (get_fs st fd))))
                          the_cart the_frame (mkFT fd YES))
        else if (the_cart =? 0) && (the_frame =? 0) then None
        else if (the_cart =? CART_MAX_CARTRIDGES) || (the_frame =? CART_CARTRIDGE_SIZE) then None
        else Some (set_table st the_cart the_frame (mkFT fd YES)) in
      match st_opt with
      | None => (false, st)
      | Some st =>
          let '(the_cart, the_frame) := next_slot st the_cart the_frame in
          writeback_loop fuel' fd local counter (S iteration) the_cart the_frame st
      end
  end.

Definition cart_write (fd : Z) (buf : bytes) (count : Z) (st : DriverState D) : Z * DriverState D :=
  if count <? 0 then (-1, st) else
  let e := get_fs st fd in
  if (filehandle e <? 0) || flag_eqb (openfile e) NO then (-1, st) else
  if negb ((0 <? numFiles st) && (filehandle e =? fd)) then (-1, st) else
  let buf_size := Z.of_nat (strlen buf) in
  let local := if 0 <? filelength e then zeros (Z.to_nat (buf_size + filelength e))
               else zeros (Z.to_nat count) in
  match incart e with
  | NO =>
      let '(c0, f0) := next_slot st (cartIndex e) (frameIndex e) in
      first_write_loop (S (Z.to_nat count)) fd count buf count 0 c0 f0 (zeros FRAME_BYTES) st
  | YES =>
      let counter := filelength e in
      if negb (check_table_space fd count st =? 0) then (-1, st) else
      match get_file_pieces fd st with
      | None => (-1, st)
      | Some tempFile =>
          let '(c0, f0) := nth 0 tempFile (0, 0) in
          let st := snd (load_this_cart c0 st) in
          match readback_loop (S (Z.to_nat counter)) tempFile counter 0 c0 f0
                              (zeros FRAME_BYTES) local st with
          | (None, st) => (-1, st)
          | (Some (local, the_cart, the_frame), st) =>
              let local := memcpy_at local (Z.to_nat (fileposition e)) buf (Z.to_nat count) in
              let newlen := Z.of_nat (strlen local) in
              let newpos := if filelength e <? wrap32 (fileposition e + buf_size) then newlen
                            else wrap32 (fileposition e + count) in
              let st := set_fs st fd (with_pos_len (get_fs st fd) newpos newlen) in
              let '(the_cart, the_frame) := next_slot st the_cart the_frame in
              match writeback_loop (S (Z.to_nat newlen)) fd local newlen 0 the_cart the_frame st with
              | (false, st) => (-1, st)
              | (true, st) => (count, st)
              end
          end
      end
  end.

End Ops.

(** A CART controller that answers every request with success, as §4.2 and
    §6 of the spec describe it (the controller is not part of the sources):
    LOAD selects a cartridge, ZERO clears it, READ returns and WRITE stores a
    frame of the loaded cartridge. *)
Record SimDevice := mkSim {
  loaded : Z;
  frames : Z -> Z -> bytes
}.

#[export] Instance sim_bus : CartBus SimDevice := fun reg buf d =>
  let key := extract_cart_opcode reg CART_REG_KY1 in
  if key =? CART_OP_LDCART then (0, buf, mkSim (extract_cart_opcode reg CART_REG_CT1) (frames d))
  else if key =? CART_OP_BZERO then
    (0, buf, mkSim (loaded d) (fun c f => if c =? loaded d then zeros FRAME_BYTES else frames d c f))
  else if key =? CART_OP_RDFRME then
    (0, frames d (loaded d) (extract_cart_opcode reg CART_REG_FM1), d)
  else if key =? CART_OP_WRFRME then
    let fm := extract_cart_opcode reg CART_REG_FM1 in
    (0, buf, mkSim (loaded d) (fun c f => if (c =? loaded d) && (f =? fm)
                                          then firstn FRAME_BYTES buf else frames d c f))
  else (0, buf, d).

Definition sim_start : SimDevice := mkSim 0 (fun _ _ => zeros FRAME_BYTES).

(** The process before [cart_poweron], the external sequence having set the
    cache size. *)
Definition process_start (cache_frames : Z) : DriverState SimDevice :=
  mkDS [] poweron_table (snd (set_cart_cache_size cache_frames initial_cache)) sim_start.

Definition after_poweron : DriverState SimDevice := snd (cart_poweron (process_start 2)).

End Driver.

Import Driver.

(** ** Concrete runs *)

Definition path_a : bytes := [x61]. (* "a" *)
Definition path_b : bytes := [x62]. (* "b" *)
Definition hello : bytes := [x68; x65; x6c; x6c; x6f]. (* "hello" *)
Definition xyz : bytes := [x78; x79; x7a]. (* "xyz" *)

(** Power on, then open "a": handle 0. *)
Definition opened_a : DriverState SimDevice := snd (cart_open path_a after_poweron).

(** ... then write "hello": position = length = 5. *)
Definition wrote_hello : DriverState SimDevice := snd (cart_write 0 hello 5 opened_a).

(** Open "a" (handle 0) and "b" (handle 1), then close handle 0. *)
Definition a_closed_b_open : DriverState SimDevice :=
  let st := snd (cart_open path_a after_poweron) in
  let st := snd (cart_open path_b st) in
  snd (cart_close 0 st).

(** Every slot of the allocation table in use: (0,0) holds the 5 bytes of
    open file 0; every other slot belongs to file 1, since closed (closing
    does not release slots). *)
Definition full_table_state : DriverState SimDevice :=
  mkDS [mkFS [x61; x00] 0 0 5 0 0 YES YES; mkFS [x00; x00] (-1) 0 0 0 0 NO YES]
       (fun c f => if (c =? 0) && (f =? 0) then mkFT 0 YES else mkFT 1 YES)
       (fresh_cache 2)
       (mkSim 0 (fun c f => if (c =? 0) && (f =? 0) then hello ++ zeros 1019
                            else zeros FRAME_BYTES)).

(** ** State predicates *)

(** The entry [put_cart_cache] writes into a free slot. *)
Definition put_entry (cart frm : Z) (buf : bytes) (c : CacheState) : CacheTable :=
  mkCacheTable (strncpy_n FRAME_BYTES buf) (create_cache_tag cart frm) cart frm YES
               (lruCounter c + 1).

(** No slot carries the tag of address ([cart], [frm]). *)
Definition tag_absent (cart frm : Z) (c : CacheState) : bool :=
  forallb (fun e => negb (cacheHandle e =? create_cache_tag cart frm)) (mem c).

(** Some slot has [isUsed == NO]. *)
Definition has_free_slot (c : CacheState) : bool :=
  existsb (fun e => flag_eqb (isUsed e) NO) (mem c).

(** Every slot's counter is at most the global counter, which is not negative. *)
Definition counters_bounded (c : CacheState) : Prop :=
  0 <= lruCounter c /\ Forall (fun e => lru e <= lruCounter c) (mem c).



(** Every file-system entry that is not open has an empty name. *)
Definition closed_names_empty (l : list FileSystem) : bool :=
  forallb (fun e => flag_eqb (openfile e) YES || Nat.eqb (strlen (filename e)) 0) l.


Definition seeked_1 : DriverState SimDevice := snd (cart_seek 0 1 wrote_hello).

(** ** Codec lemmas *)

Lemma testbit_small x w k : 0 <= x < 2 ^ w -> 0 <= w <= k -> Z.testbit x k = false.
Proof.
  intros Hx Hk. rewrite <- (Z.mod_small x (2 ^ w)) by lia.
  apply Z.mod_pow2_bits_high. lia.
Qed.

(** Rewrites one bit of the packed register into the bit of the field it
    comes from, or to [false]. *)
Ltac codec_bit :=
  match goal with
  | |- context [Z.testbit (Z.lor _ _) _] => rewrite Z.lor_spec
  | |- context [Z.testbit (Z.shiftr ?a ?s) ?k] => rewrite (Z.shiftr_spec a s k) by lia
  | |- context [Z.testbit (?a mod 2 ^ ?w) ?k] =>
      first [ rewrite (Z.mod_pow2_bits_low a w k) by lia
            | rewrite (Z.mod_pow2_bits_high a w k) by lia ]
  | |- context [Z.testbit (Z.shiftl ?a ?s) ?k] => rewrite (Z.shiftl_spec a s k) by lia
  | |- context [Z.testbit ?x ?k] => rewrite (Z.testbit_neg_r x k) by lia
  | H : 0 <= ?x < 2 ^ ?w |- context [Z.testbit ?x ?k] =>
      rewrite (testbit_small x w k H) by lia
  end.

Ltac codec_field w :=
  apply Z.bits_inj'; intros n Hn;
  destruct (Z.lt_ge_cases n w);
  [ repeat codec_bit; rewrite ?orb_false_l, ?orb_false_r; f_equal; lia
  | repeat codec_bit; rewrite ?orb_false_l, ?orb_false_r; reflexivity ].

Section Codec.

Variables k1 k2 r c f v : Z.
Hypotheses (Hk1 : 0 <= k1 < 2 ^ 8) (Hk2 : 0 <= k2 < 2 ^ 8) (Hr : 0 <= r < 2 ^ 1)
           (Hc : 0 <= c < 2 ^ 16) (Hf : 0 <= f < 2 ^ 16) (Hv : 0 <= v < 2 ^ 15).

Let reg := create_cart_opcode k1 k2 r c f v.

Lemma extract_KY1 : extract_cart_opcode reg CART_REG_KY1 = k1.
Proof.
  unfold reg, create_cart_opcode, extract_cart_opcode, wrap64. codec_field 8.
Qed.

Lemma extract_KY2 : extract_cart_opcode reg CART_REG_KY2 = k2.
Proof.
  unfold reg, create_cart_opcode, extract_cart_opcode, wrap64.
  change 255 with (Z.ones 8). rewrite Z.land_ones by lia. codec_field 8.
Qed.

Lemma extract_RT1 : extract_cart_opcode reg CART_REG_RT1 = r.
Proof.
  unfold reg, create_cart_opcode, extract_cart_opcode, wrap64.
  change 1 with (Z.ones 1). rewrite Z.land_ones by lia. codec_field 1.
Qed.

Lemma extract_CT1 : extract_cart_opcode reg CART_REG_CT1 = c.
Proof.
  unfold reg, create_cart_opcode, extract_cart_opcode, wrap64.
  change 65535 with (Z.ones 16). rewrite Z.land_ones by lia. codec_field 16.
Qed.

Lemma extract_FM1 : extract_cart_opcode reg CART_REG_FM1 = f.
Proof.
  unfold reg, create_cart_opcode, extract_cart_opcode, wrap64.
  change 65535 with (Z.ones 16). rewrite Z.land_ones by lia. codec_field 16.
Qed.

End Codec.

(** ** Client lemmas *)

Section ClientLemmas.
Import Client.

Lemma be64_length x : length (be64 x) = 8%nat.
Proof. unfold be64. now rewrite length_map, length_seq. Qed.
Lemma os_read_sent fd n k : sent (snd (os_read fd n k)) = sent k.
Proof. unfold os_read. destruct (live fd k); reflexivity. Qed.
Lemma recv_header_sent fd k r :
  recv_header fd k = Some r -> sent (snd r) = sent k.
Proof.
  unfold recv_header.
  destruct (os_read fd 8 k) as [[n1 v1] k1] eqn:E1.
  destruct (negb (n1 =? 8)); [discriminate|].
  destruct (os_read fd 8 k1) as [[n2 v2] k2] eqn:E2.
  destruct (negb (n2 =? 8)); [discriminate|].
  intros Hr; inversion Hr; subst; cbn [snd].
  pose proof (os_read_sent fd 8 k) as S1; pose proof (os_read_sent fd 8 k1) as S2.
  rewrite E1 in S1; rewrite E2 in S2; cbn [snd] in S1, S2; congruence.
Qed.

Lemma recv_payload_sent fd len buf k r :
  recv_payload fd len buf k = Some r -> sent (snd r) = sent k.
Proof.
  unfold recv_payload.
  destruct (0 <? len); [|intros Hr; inversion Hr; reflexivity].
  destruct (os_read fd FRAME_BYTES k) as [[n got] k'] eqn:E.
  destruct (negb (n =? CART_FRAME_SIZE)); [discriminate|].
  intros Hr; inversion Hr; subst; cbn [snd].
  pose proof (os_read_sent fd FRAME_BYTES k) as S; rewrite E in S; exact S.
Qed.
Lemma exchange_write_sent reg buf k :
  conn_open k = true ->
  sent (xfer_conn (exchange_write SOCKET_FD reg buf k)) = sent k ++ be64 reg ++ be64 CART_FRAME_SIZE.
Proof.
  intros Hk. unfold exchange_write, send_header.
  unfold os_write at 1. unfold live at 1. rewrite Z.eqb_refl, Hk. cbn [andb negb fst snd].
  rewrite be64_length. change (Z.of_nat 8 =? 8) with true. cbn [negb].
  unfold os_write, live. rewrite Z.eqb_refl. cbn [conn_open andb sent inbox].
  rewrite be64_length. change (Z.of_nat 8 =? 8) with true. cbn [negb].
  rewrite <- app_assoc.
  set (k1 := mkConn true (sent k ++ be64 reg ++ be64 CART_FRAME_SIZE) (inbox k)).
  destruct (os_read SOCKET_FD FRAME_BYTES k1) as [[n got] k2] eqn:E.
  pose proof (os_read_sent SOCKET_FD FRAME_BYTES k1) as S; rewrite E in S; cbn [snd] in S.
  unfold k1 in S; cbn [sent] in S.
  destruct (negb (n =? CART_FRAME_SIZE)); cbn [xfer_conn]; [exact S|].
  destruct (recv_header SOCKET_FD k2) as [[[resp len] k3]|] eqn:E3; cbn [xfer_conn]; [|exact S].
  apply recv_header_sent in E3; cbn [snd] in E3.
  destruct (recv_payload SOCKET_FD len (memcpy_at buf 0 got (length got)) k3)
    as [[buf' k4]|] eqn:E4; cbn [xfer_conn].
  - apply recv_payload_sent in E4; cbn [snd] in E4. congruence.
  - congruence.
Qed.

Lemma exchange_write_closed_fd reg buf k :
  exchange_write (-1) reg buf k = XErr buf k.
Proof. reflexivity. Qed.

End ClientLemmas.

(** ** Driver lemmas *)

Lemma update_nth_length {A} n (f : A -> A) l : length (update_nth n f l) = length l.
Proof. revert n; induction l as [|x t IH]; intros [|n]; cbn; auto. Qed.

Lemma update_nth_other {A} n (f : A -> A) l i :
  i <> n -> nth_error (update_nth n f l) i = nth_error l i.
Proof.
  revert n i; induction l as [|x t IH]; intros [|n] [|i] Hi; cbn; auto; try congruence.
  all: apply IH; lia.
Qed.

Section OpenEntry.
Context {D : Type} `{CartBus D}.

Lemma is_open_checks e :
  is_open e = true -> ((filehandle e <? 0) || flag_eqb (openfile e) NO) = false.
Proof.
  unfold is_open; intros Ho; apply andb_prop in Ho as [H1 H2].
  apply Z.leb_le in H1; destruct (openfile e); [|discriminate].
  rewrite orb_false_r; apply Z.ltb_ge; lia.
Qed.

Lemma is_open_numFiles (st : DriverState D) fd :
  is_open (get_fs st fd) = true -> (0 <? numFiles st) = true.
Proof.
  unfold get_fs, numFiles; destruct (fileSystem st) as [|x t].
  - destruct (Z.to_nat fd); discriminate.
  - intros _; cbn [length]; apply Z.ltb_lt; lia.
Qed.

(** At end of file, a read of a nonzero count returns -1 on any device. *)
Lemma read_at_end_nonzero (st : DriverState D) fd count :
  fileposition (get_fs st fd) = filelength (get_fs st fd) -> count <> 0 ->
  fst (fst (cart_read fd count st)) = -1.
Proof.
  intros Hend Hc; unfold cart_read; cbv zeta.
  destruct (count <? 0) eqn:Hn; [reflexivity|]; apply Z.ltb_ge in Hn.
  destruct (_ || _); [reflexivity|].
  destruct (negb _); [reflexivity|].
  destruct (get_file_pieces fd st) as [tf|]; [|reflexivity].
  destruct (nth 0 tf (0, 0)) as [c0 f0].
  destruct (read_frames _ _ _ _ _ _ _) as [[ok local] st2].
  destruct (negb ok); [reflexivity|].
  rewrite Hend, Z.sub_diag; change (wrap32 0) with 0.
  replace (count <=? 0) with false by (symmetry; apply Z.leb_gt; lia).
  reflexivity.
Qed.

End OpenEntry.

Lemma sim_bus_resp reg buf d : fst (fst (sim_bus reg buf d)) = 0.
Proof.
  unfold sim_bus.
  repeat match goal with |- context [if ?b then _ else _] => destruct b end; reflexivity.
Qed.

Lemma sim_read_frame_resp reg buf (st : DriverState SimDevice) :
  fst (fst (bus reg buf st)) = 0.
Proof.
  unfold bus; pose proof (sim_bus_resp reg buf (device st)) as E.
  change (bus_request reg buf (device st)) with (sim_bus reg buf (device st)).
  destruct (sim_bus reg buf (device st)) as [[r b] d]; exact E.
Qed.

(** Against the always-successful controller every frame read succeeds. *)
Lemma sim_read_frames_ok n tf c f it local (st : DriverState SimDevice) :
  fst (fst (read_frames n tf c f it local st)) = true.
Proof.
  revert c f it local st; induction n as [|n IH]; intros c f it local st; [reflexivity|].
  cbn [read_frames].
  destruct (get_cart_cache c f (cache st)) as [[cb|] cs]; [apply IH|].
  destruct (nth it tf (0, 0)) as [pc pf].
  destruct (if negb (c =? pc) then _ else _) as [c' st1].
  pose proof (sim_read_frame_resp (create_cart_opcode CART_OP_RDFRME 0 0 0 pf 0)
                (zeros FRAME_BYTES) st1) as R.
  destruct (bus _ _ st1) as [[resp cb] st2]; cbn [fst] in R; subst resp.
  change (negb (rt1_ok 0)) with false; apply IH.
Qed.

(** ** Claims *)

(** C3 (counterexample): no selector of [extract_cart_opcode] returns the
    reserved field: encoding command 1 and reserved 5, the selectors give
    1, 0, 0, 0, 0 and the whole register 2^56 + 5 (the default case), never 5. *)
Lemma codec_reserved_not_extracted :
  map (extract_cart_opcode (create_cart_opcode 1 0 0 0 0 5))
      [CART_REG_KY1; CART_REG_KY2; CART_REG_RT1; CART_REG_CT1; CART_REG_FM1; CART_REG_MAXVAL]
  = [1; 0; 0; 0; 0; 72057594037927941].
Proof. vm_compute; reflexivity. Qed.

(** C3 (amended): for every tuple within its field widths, each of the five
    fields with a selector (command KY1, secondaryKey KY2, returnFlag RT1,
    cartridge CT1, frame FM1) is extracted unchanged from the encoded
    register. *)
Theorem codec_roundtrip_named_fields (k1 k2 r c f v : Z)
  (Hk1 : 0 <= k1 < 2 ^ 8) (Hk2 : 0 <= k2 < 2 ^ 8) (Hr : 0 <= r < 2 ^ 1)
  (Hc : 0 <= c < 2 ^ 16) (Hf : 0 <= f < 2 ^ 16) (Hv : 0 <= v < 2 ^ 15) :
  let reg := create_cart_opcode k1 k2 r c f v in
  extract_cart_opcode reg CART_REG_KY1 = k1 /\
  extract_cart_opcode reg CART_REG_KY2 = k2 /\
  extract_cart_opcode reg CART_REG_RT1 = r /\
  extract_cart_opcode reg CART_REG_CT1 = c /\
  extract_cart_opcode reg CART_REG_FM1 = f.
Proof.
  cbv zeta.
  repeat split; [apply extract_KY1 | apply extract_KY2 | apply extract_RT1
                | apply extract_CT1 | apply extract_FM1]; assumption.
Qed.

Lemma codec_roundtrip_named_fields_witness :
  let reg := create_cart_opcode 255 7 1 65535 1234 32767 in
  extract_cart_opcode reg CART_REG_KY1 = 255 /\
  extract_cart_opcode reg CART_REG_KY2 = 7 /\
  extract_cart_opcode reg CART_REG_RT1 = 1 /\
  extract_cart_opcode reg CART_REG_CT1 = 65535 /\
  extract_cart_opcode reg CART_REG_FM1 = 1234.
Proof. apply (codec_roundtrip_named_fields 255 7 1 65535 1234 32767); lia. Defined.

(** C4 (code bug): two puts of address (0,1) fill both slots of a capacity-2
    cache; a get refreshes the first (counters become 3 and 2).  The next
    put selects the entry with counter 2 (slot 1) but deletes by address,
    which wipes slot 0: the refreshed entry is evicted and the least
    recently used one stays. *)
Theorem put_evicts_refreshed_duplicate :
  counters c4_dup_state = [3; 2] /\
  occupied c4_dup_state = [(0, 1, bA); (0, 1, bB)] /\
  occupied (snd (put_cart_cache 0 2 bC c4_dup_state)) = [(0, 2, bC); (0, 1, bB)].
Proof. vm_compute. repeat split; reflexivity. Qed.

(** C8 (code bug): on a freshly initialised cache no slot is occupied, yet
    [get_cart_cache 0 0] returns a frame: the lookup compares tags without
    looking at [isUsed], and a zeroed slot carries tag 0 = tag of (0,0). *)
Theorem get_hits_unoccupied_slot :
  occupied (fresh_cache 2) = [] /\
  fst (get_cart_cache 0 0 (fresh_cache 2)) = Some (zeros FRAME_BYTES).
Proof. vm_compute. split; reflexivity. Qed.

(** C1: writing 1025 bytes to a freshly opened handle fails (the second frame
    goes to slot (0,1), which the first-write loop rejects); and a one-byte
    write of NUL succeeds, yet reading it back from position 0 leaves the
    caller's byte unwritten ([None]), since frames are copied with [strlen]. *)
Theorem write_seek_read_not_identity :
  fst (cart_open path_a after_poweron) = 0 /\
  fst (cart_write 0 (repeat x61 1025) 1025 opened_a) = -1 /\
  fst (cart_write 0 [x00] 1 opened_a) = 1 /\
  fst (cart_read 0 1 (snd (cart_seek 0 0 (snd (cart_write 0 [x00] 1 opened_a))))) = (1, [None]).
Proof. repeat split; vm_compute; reflexivity. Qed.

Example hello_round_trip :
  fst (cart_write 0 hello 5 opened_a) = 5 /\
  fst (cart_read 0 5 (snd (cart_seek 0 0 wrote_hello))) = (5, map Some hello).
Proof. split; vm_compute; reflexivity. Qed.

(** C5, counterexample: "hello" written and the position at its end; a read
    of 0 bytes returns 0, not -1. *)
Lemma read_zero_at_end_returns_zero :
  is_open (get_fs wrote_hello 0) = true /\
  fileposition (get_fs wrote_hello 0) = filelength (get_fs wrote_hello 0) /\
  fst (fst (cart_read 0 0 wrote_hello)) = 0.
Proof. repeat split; vm_compute; reflexivity. Qed.

(** C5, amended: on an open handle whose position equals its length, a read
    returns 0 when the count is 0 and the file is not empty, and -1 in every
    other case (a nonzero count, or an empty file). *)
Theorem read_at_end_of_file (st : DriverState SimDevice) (fd count : Z)
  (Hopen : is_open (get_fs st fd) = true)
  (Hfd : filehandle (get_fs st fd) = fd)
  (Hend : fileposition (get_fs st fd) = filelength (get_fs st fd)) :
  fst (fst (cart_read fd count st))
  = if (count =? 0) && (1 <=? filelength (get_fs st fd)) then 0 else -1.
Proof.
  destruct (count =? 0) eqn:Ec; cbn [andb].
  2: { apply Z.eqb_neq in Ec; exact (read_at_end_nonzero st fd count Hend Ec). }
  apply Z.eqb_eq in Ec; subst count.
  unfold cart_read; cbv zeta.
  change (0 <? 0) with false; cbv iota.
  rewrite (is_open_checks _ Hopen), (is_open_numFiles st fd Hopen), Hfd, Z.eqb_refl.
  cbn [andb negb].
  unfold get_file_pieces.
  destruct (filelength (get_fs st fd) <? 1) eqn:El.
  - apply Z.ltb_lt in El; replace (1 <=? filelength (get_fs st fd)) with false
      by (symmetry; apply Z.leb_gt; lia); reflexivity.
  - apply Z.ltb_ge in El; replace (1 <=? filelength (get_fs st fd)) with true
      by (symmetry; apply Z.leb_le; lia).
    destruct (nth 0 (owned_by st fd) (0, 0)) as [c0 f0].
    pose proof (sim_read_frames_ok (Z.to_nat (get_num_pieces fd st)) (owned_by st fd) c0 f0 0
                  (repeat None (Z.to_nat (filelength (get_fs st fd))))
                  (snd (load_this_cart c0 st))) as Ok.
    destruct (read_frames _ _ _ _ _ _ _) as [[ok local] st2]; cbn [fst] in Ok; subst ok.
    cbn [negb]; rewrite Hend, Z.sub_diag; change (wrap32 0) with 0.
    reflexivity.
Qed.

Lemma read_at_end_of_file_witness :
  is_open (get_fs wrote_hello 0) = true /\ filehandle (get_fs wrote_hello 0) = 0 /\
  fileposition (get_fs wrote_hello 0) = filelength (get_fs wrote_hello 0) /\
  fst (fst (cart_read 0 0 wrote_hello))
  = if (0 =? 0) && (1 <=? filelength (get_fs wrote_hello 0)) then 0 else -1.
Proof.
  assert (H1 : is_open (get_fs wrote_hello 0) = true) by (vm_compute; reflexivity).
  assert (H2 : filehandle (get_fs wrote_hello 0) = 0) by (vm_compute; reflexivity).
  assert (H3 : fileposition (get_fs wrote_hello 0) = filelength (get_fs wrote_hello 0))
    by (vm_compute; reflexivity).
  exact (conj H1 (conj H2 (conj H3 (read_at_end_of_file wrote_hello 0 0 H1 H2 H3)))).
Defined.

(** C6: with "b" open at handle 1 and handle 0 closed, opening "b" again
    returns handle 0 and leaves two open entries named "b". *)
Theorem open_duplicate_path_after_closed_slot :
  is_open (get_fs a_closed_b_open 0) = false /\
  is_open (get_fs a_closed_b_open 1) = true /\
  filename (get_fs a_closed_b_open 1) = [x62; x00] /\
  fst (cart_open path_b a_closed_b_open) = 0 /\
  map is_open (fileSystem (snd (cart_open path_b a_closed_b_open))) = [true; true] /\
  map filename (fileSystem (snd (cart_open path_b a_closed_b_open))) = [[x62; x00]; [x62; x00]].
Proof. repeat split; vm_compute; reflexivity. Qed.

(** C7, counterexample: no slot of the allocation table is free, yet a write
    of 3 bytes at position 0 of the 5-byte file 0 succeeds, since it ends
    within the current length. *)
Lemma write_within_length_skips_capacity_check :
  count_free full_table_state = 0 /\
  is_open (get_fs full_table_state 0) = true /\
  incart (get_fs full_table_state 0) = YES /\
  fst (cart_write 0 xyz 3 full_table_state) = 3.
Proof. repeat split; vm_compute; reflexivity. Qed.

(** C7, amended: take a write to an open file already in a cartridge, with
    the sums of [check_table_space] taken as [uint32_t] ([wrap32]).  If the
    write ends past the current length and fewer slots are free than
    [ceil((length + count) / CART_FRAME_SIZE)], it returns -1 and leaves the
    whole state (table, cache, file entries, device) as it was.  If it ends
    within the current length, [check_table_space] reports success whatever
    the allocation table holds, so the write is not stopped by the capacity
    check, even with no slot free. *)
Theorem write_capacity_checked_first {D : Type} `{CartBus D}
  (st : DriverState D) (fd : Z) (buf : bytes) (count : Z)
  (Hc : 0 <= count)
  (Hopen : is_open (get_fs st fd) = true)
  (Hfd : filehandle (get_fs st fd) = fd)
  (Hin : incart (get_fs st fd) = YES) :
  (filelength (get_fs st fd) < wrap32 (fileposition (get_fs st fd) + count) ->
   count_free st < ceil_div (wrap32 (filelength (get_fs st fd) + count)) CART_FRAME_SIZE ->
   cart_write fd buf count st = (-1, st)) /\
  (wrap32 (fileposition (get_fs st fd) + count) <= filelength (get_fs st fd) ->
   forall tbl : Z -> Z -> FileTable,
   check_table_space fd count (mkDS (fileSystem st) tbl (cache st) (device st)) = 0).
Proof.
  split.
  - intros Hpast Hfree. unfold cart_write; cbv zeta.
    replace (count <? 0) with false by (symmetry; apply Z.ltb_ge; lia).
    rewrite (is_open_checks _ Hopen), (is_open_numFiles st fd Hopen), Hfd, Z.eqb_refl.
    cbn [andb negb]. rewrite Hin.
    unfold check_table_space; cbv zeta.
    replace (wrap32 (fileposition (get_fs st fd) + count) <=? filelength (get_fs st fd)) with false
      by (symmetry; apply Z.leb_gt; lia).
    replace (count_free st <? ceil_div (wrap32 (filelength (get_fs st fd) + count)) CART_FRAME_SIZE)
      with true by (symmetry; apply Z.ltb_lt; lia).
    reflexivity.
  - intros Hwithin tbl. unfold check_table_space; cbv zeta.
    change (get_fs (mkDS (fileSystem st) tbl (cache st) (device st)) fd) with (get_fs st fd).
    replace (wrap32 (fileposition (get_fs st fd) + count) <=? filelength (get_fs st fd)) with true
      by (symmetry; apply Z.leb_le; lia).
    reflexivity.
Qed.

Lemma write_capacity_checked_first_witness :
  cart_write 0 (repeat x61 10) 10 full_table_state = (-1, full_table_state) /\
  check_table_space 0 3 (mkDS (fileSystem full_table_state) (fun _ _ => mkFT 1 YES)
                              (cache full_table_state) (device full_table_state)) = 0.
Proof.
  split.
  - apply (proj1 (write_capacity_checked_first full_table_state 0 (repeat x61 10) 10
                    ltac:(lia) ltac:(vm_compute; reflexivity) ltac:(vm_compute; reflexivity)
                    ltac:(vm_compute; reflexivity)));
      vm_compute; first [reflexivity | discriminate].
  - apply (proj2 (write_capacity_checked_first full_table_state 0 xyz 3
                    ltac:(lia) ltac:(vm_compute; reflexivity) ltac:(vm_compute; reflexivity)
                    ltac:(vm_compute; reflexivity))).
    vm_compute; discriminate.
Defined.

(** C9: handle 0 after power-on is closed, yet seeking it to offset 0
    succeeds. *)
Theorem seek_closed_handle_succeeds :
  is_open (get_fs after_poweron 0) = false /\ fst (cart_seek 0 0 after_poweron) = 0.
Proof. split; vm_compute; reflexivity. Qed.

(** C10: [cart_close] on an entry that is not open returns -1 and changes
    nothing; in every case it keeps the allocation table, the cache, the
    device and the number of entries, and every entry at another index. *)
Theorem close_changes_only_open_entry {D : Type} `{CartBus D} (st : DriverState D) (fd : Z) :
  (is_open (get_fs st fd) = false ->
     fst (cart_close fd st) = -1 /\ snd (cart_close fd st) = st) /\
  fileTable (snd (cart_close fd st)) = fileTable st /\
  cache (snd (cart_close fd st)) = cache st /\
  device (snd (cart_close fd st)) = device st /\
  length (fileSystem (snd (cart_close fd st))) = length (fileSystem st) /\
  (forall i, i <> Z.to_nat fd ->
     nth_error (fileSystem (snd (cart_close fd st))) i = nth_error (fileSystem st) i).
Proof.
  unfold cart_close; cbv zeta.
  destruct (is_open (get_fs st fd)) eqn:Ho.
  - cbn [snd]; unfold set_fs; cbn [fileTable cache device fileSystem].
    split; [discriminate|]. do 3 (split; [reflexivity|]).
    split; [apply update_nth_length|].
    intros i Hi; apply update_nth_other; exact Hi.
  - cbn [fst snd]; repeat split; reflexivity.
Qed.

Lemma close_changes_only_open_entry_witness :
  is_open (get_fs after_poweron 0) = false /\
  fst (cart_close 0 after_poweron) = -1 /\ snd (cart_close 0 after_poweron) = after_poweron.
Proof.
  assert (H0 : is_open (get_fs after_poweron 0) = false) by (vm_compute; reflexivity).
  destruct (close_changes_only_open_entry after_poweron 0) as [Hc _].
  exact (conj H0 (Hc H0)).
Defined.

Import Client.

(** C2: a WRFRME request through [client_cart_bus_request] fails without
    sending anything, since [socket_fd] is never the live descriptor; and
    even on a live descriptor the exchange sends only the two header words,
    with no frame payload, because its payload step is a [read]. *)
Theorem wrframe_sends_no_payload (st : ClientState) (reg : Z) (buf : bytes)
  (Hreq : extract_cart_opcode reg CART_REG_KY1 mod 256 = CART_OP_WRFRME) :
  fst (fst (client_cart_bus_request reg buf st)) = FAIL /\
  sent (conn (snd (client_cart_bus_request reg buf st))) = sent (conn st) /\
  (forall k, conn_open k = true ->
     sent (xfer_conn (exchange_write SOCKET_FD reg buf k))
     = sent k ++ be64 reg ++ be64 CART_FRAME_SIZE).
Proof.
  split; [|split]; [| |exact (exchange_write_sent reg buf)];
  unfold client_cart_bus_request; rewrite Hreq;
  destruct (client_socket st =? -1) eqn:E; cbn [negb fst snd]; try reflexivity;
  apply Z.eqb_eq in E; rewrite E;
  change (CART_OP_WRFRME =? CART_OP_INITMS) with false;
  change ((CART_OP_WRFRME =? CART_OP_BZERO) || (CART_OP_WRFRME =? CART_OP_LDCART)) with false;
  change (CART_OP_WRFRME =? CART_OP_RDFRME) with false;
  change (CART_OP_WRFRME =? CART_OP_WRFRME) with true;
  cbv iota; rewrite exchange_write_closed_fd; reflexivity.
Qed.

Lemma wrframe_sends_no_payload_witness :
  extract_cart_opcode (create_cart_opcode CART_OP_WRFRME 0 0 0 7 0) CART_REG_KY1 mod 256
    = CART_OP_WRFRME /\
  fst (fst (client_cart_bus_request (create_cart_opcode CART_OP_WRFRME 0 0 0 7 0)
                                    (zeros FRAME_BYTES) after_init)) = FAIL /\
  sent (conn (snd (client_cart_bus_request (create_cart_opcode CART_OP_WRFRME 0 0 0 7 0)
                                         (zeros FRAME_BYTES) after_init)))
  = sent (conn after_init).
Proof.
  assert (H : extract_cart_opcode (create_cart_opcode CART_OP_WRFRME 0 0 0 7 0) CART_REG_KY1 mod 256
              = CART_OP_WRFRME) by reflexivity.
  destruct (wrframe_sends_no_payload after_init _ (zeros FRAME_BYTES) H) as [H1 [H2 _]].
  exact (conj H (conj H1 H2)).
Defined.

(** ** Further properties of the cache, the driver and the client *)

(** ** Cache lemmas *)

Section FindIndex.
Context {A : Type}.

Lemma find_index_some (p : A -> bool) l i d :
  find_index p l = Some i ->
  (i < length l)%nat /\ p (nth i l d) = true /\
  (forall j, (j < i)%nat -> p (nth j l d) = false).
Proof.
  revert i; induction l as [|x t IH]; intros i; cbn; [discriminate|].
  destruct (p x) eqn:Px.
  - intros E; inversion E; subst; repeat split; auto; [lia|intros; lia].
  - destruct (find_index p t) as [k|] eqn:Ek; cbn; [|discriminate].
    intros E; inversion E; subst.
    destruct (IH k eq_refl) as (H1 & H2 & H3).
    repeat split; [lia|exact H2|]. intros [|j] Hj; [exact Px|apply H3; lia].
Qed.


Lemma find_index_existsb (p : A -> bool) l :
  existsb p l = true -> exists i, find_index p l = Some i.
Proof.
  induction l as [|x t IH]; cbn; [discriminate|].
  destruct (p x); [intros _; exists O; reflexivity|].
  cbn; intros H; destruct (IH H) as [i Hi]; rewrite Hi; cbn; eauto.
Qed.

Lemma nth_update_nth_same n (f : A -> A) l d :
  (n < length l)%nat -> nth n (update_nth n f l) d = f (nth n l d).
Proof.
  revert n; induction l as [|x t IH]; intros [|n] Hn; cbn in *; try lia; auto.
  all: apply IH; lia.
Qed.

Lemma nth_update_nth_other n m (f : A -> A) l d :
  m <> n -> nth m (update_nth n f l) d = nth m l d.
Proof.
  revert n m; induction l as [|x t IH]; intros [|n] [|m] Hm; cbn; auto; try congruence.
  all: apply IH; lia.
Qed.

Lemma update_nth_update_nth n (f g : A -> A) l :
  update_nth n f (update_nth n g l) = update_nth n (fun x => f (g x)) l.
Proof. revert n; induction l as [|x t IH]; intros [|n]; cbn; f_equal; auto. Qed.

(** Replacing one element by one that a test rejects, where the test
    rejected the old one too, keeps the filtered list. *)
Lemma filter_update_nth (p : A -> bool) n f l d :
  (n < length l)%nat -> p (nth n l d) = false -> p (f (nth n l d)) = false ->
  filter p (update_nth n f l) = filter p l.
Proof.
  revert n; induction l as [|x t IH]; intros [|n] Hn H1 H2; cbn in *; try lia.
  - rewrite H1, H2; reflexivity.
  - destruct (p x); [f_equal|]; apply IH; auto; lia.
Qed.

(** The first index where the updated element passes, when no element of
    the list passed before. *)
Lemma find_index_update_first (p : A -> bool) n f l d :
  forallb (fun x => negb (p x)) l = true -> (n < length l)%nat ->
  p (f (nth n l d)) = true -> find_index p (update_nth n f l) = Some n.
Proof.
  revert n; induction l as [|x t IH]; intros [|n] Hall Hn Hp; cbn in *; try lia.
  - rewrite Hp; reflexivity.
  - apply andb_prop in Hall as [Hx Ht]. apply negb_true_iff in Hx; rewrite Hx.
    rewrite (IH n Ht) by (auto; lia); reflexivity.
Qed.

End FindIndex.

Lemma mem_tick c : mem (tick c) = mem c.
Proof. reflexivity. Qed.

Lemma mem_with_mem c m : mem (with_mem c m) = m.
Proof. reflexivity. Qed.

Lemma strncpy_n_length n s : length (strncpy_n n s) = n.
Proof.
  revert s; induction n as [|n IH]; intros s; cbn; [reflexivity|].
  destruct s as [|b t]; [cbn; f_equal; apply IH|].
  destruct (Byte.eqb b x00); cbn; f_equal; apply IH.
Qed.

Lemma put_free_slot cart frm buf c i :
  find_index (fun e => flag_eqb (isUsed e) NO) (mem c) = Some i ->
  put_cart_cache cart frm buf c
  = (0, with_mem (tick c) (update_nth i (fun _ => put_entry cart frm buf c) (mem c))).
Proof.
  intros Hi. unfold put_cart_cache. rewrite mem_tick. cbn [put_search].
  rewrite mem_tick, Hi. reflexivity.
Qed.

(** A put of an address no slot carries, into a cache with a free slot, is
    found by the next get, which returns the stored frame. *)
Theorem put_then_get cart frm buf c :
  tag_absent cart frm c = true -> has_free_slot c = true ->
  fst (get_cart_cache cart frm (snd (put_cart_cache cart frm buf c)))
  = Some (strncpy_n FRAME_BYTES buf).
Proof.
  intros Ht Hf. destruct (find_index_existsb _ _ Hf) as [i Hi].
  destruct (find_index_some _ _ _ zeroed_entry Hi) as (Hlt & _ & _).
  rewrite (put_free_slot cart frm buf c i Hi). cbn [snd].
  unfold get_cart_cache. rewrite mem_tick, mem_with_mem.
  rewrite (find_index_update_first _ i _ _ zeroed_entry Ht Hlt) by (cbn; apply Z.eqb_refl).
  cbn [fst]. rewrite nth_update_nth_same by exact Hlt. reflexivity.
Qed.

Lemma put_then_get_witness :
  fst (get_cart_cache 1 2 (snd (put_cart_cache 1 2 bA (fresh_cache 2))))
  = Some (strncpy_n FRAME_BYTES bA).
Proof. apply put_then_get; vm_compute; reflexivity. Defined.

(** Deleting right after such a put returns the stored frame and leaves the
    occupied slots and the capacity as before the put. *)
Theorem put_then_delete cart frm buf c :
  tag_absent cart frm c = true -> has_free_slot c = true ->
  let c' := snd (put_cart_cache cart frm buf c) in
  fst (delete_cart_cache cart frm c') = Some (strncpy_n FRAME_BYTES buf) /\
  occupied (snd (delete_cart_cache cart frm c')) = occupied c /\
  length (mem (snd (delete_cart_cache cart frm c'))) = length (mem c).
Proof.
  intros Ht Hf. destruct (find_index_existsb _ _ Hf) as [i Hi].
  destruct (find_index_some _ _ _ zeroed_entry Hi) as (Hlt & Hfree & _).
  cbv zeta. rewrite (put_free_slot cart frm buf c i Hi). cbn [snd].
  unfold delete_cart_cache. rewrite mem_tick, mem_with_mem.
  rewrite (find_index_update_first _ i _ _ zeroed_entry Ht Hlt) by (cbn; apply Z.eqb_refl).
  rewrite nth_update_nth_same by exact Hlt. cbn [cachedFrame put_entry fst snd].
  rewrite firstn_all2 by (rewrite strncpy_n_length; lia).
  split; [reflexivity|]. unfold occupied, mem at 1 3. cbn [cacheMemory].
  rewrite update_nth_update_nth. split.
  - f_equal. apply filter_update_nth with (d := zeroed_entry); auto.
    destruct (isUsed (nth i (mem c) zeroed_entry)); [discriminate|reflexivity].
  - cbn [mem cacheMemory]; now rewrite update_nth_length.
Qed.

Lemma put_then_delete_witness :
  let c' := snd (put_cart_cache 1 2 bA (fresh_cache 2)) in
  fst (delete_cart_cache 1 2 c') = Some (strncpy_n FRAME_BYTES bA) /\
  occupied (snd (delete_cart_cache 1 2 c')) = occupied (fresh_cache 2) /\
  length (mem (snd (delete_cart_cache 1 2 c'))) = length (mem (fresh_cache 2)).
Proof. apply put_then_delete; vm_compute; reflexivity. Defined.



(** For 16-bit cartridge and frame, the tag holds the cartridge in its high
    and the frame in its low 16 bits. *)
Theorem cache_tag_decode cart frm :
  0 <= cart < 2 ^ 16 -> 0 <= frm < 2 ^ 16 ->
  Z.shiftr (create_cache_tag cart frm) 16 = cart /\
  Z.land (create_cache_tag cart frm) 65535 = frm.
Proof.
  intros Hc Hf. unfold create_cache_tag, wrap32. split.
  - codec_field 16.
  - change 65535 with (Z.ones 16). rewrite Z.land_ones by lia. codec_field 16.
Qed.

Lemma cache_tag_decode_witness :
  Z.shiftr (create_cache_tag 3 7) 16 = 3 /\ Z.land (create_cache_tag 3 7) 65535 = 7.
Proof. apply cache_tag_decode; lia. Defined.

(** After a successful init, init fails, also after a close. *)
Theorem cache_init_once c :
  fst (init_cart_cache c) = 0 ->
  let c1 := snd (init_cart_cache c) in
  init_cart_cache c1 = (-1, c1) /\
  fst (init_cart_cache (snd (close_cart_cache c1))) = -1.
Proof.
  unfold init_cart_cache; destruct (cacheInit c), (cacheMemory c); cbn; try discriminate.
  intros _; split; reflexivity.
Qed.

Lemma cache_init_once_witness :
  let c1 := snd (init_cart_cache (snd (set_cart_cache_size 2 initial_cache))) in
  init_cart_cache c1 = (-1, c1) /\ fst (init_cart_cache (snd (close_cart_cache c1))) = -1.
Proof. apply cache_init_once; vm_compute; reflexivity. Defined.

(** Setting the size succeeds exactly for 1..CACHE_MAX_OPEN_FILES; then init
    succeeds with that many slots, none occupied. *)
Theorem fresh_cache_empty n :
  0 <= n ->
  (fst (set_cart_cache_size n initial_cache) = 0 <-> 1 <= n <= CACHE_MAX_OPEN_FILES) /\
  (1 <= n <= CACHE_MAX_OPEN_FILES ->
   fst (init_cart_cache (snd (set_cart_cache_size n initial_cache))) = 0 /\
   length (mem (fresh_cache n)) = Z.to_nat n /\
   occupied (fresh_cache n) = [] /\
   counters_bounded (fresh_cache n)).
Proof.
  intros Hn. unfold fresh_cache, set_cart_cache_size.
  destruct (CACHE_MAX_OPEN_FILES <? n) eqn:E1.
  - apply Z.ltb_lt in E1. split; [cbn; split; [discriminate|lia]|lia].
  - apply Z.ltb_ge in E1. destruct (n =? 0) eqn:E2.
    + apply Z.eqb_eq in E2. split; [cbn; split; [discriminate|lia]|lia].
    + apply Z.eqb_neq in E2. split; [cbn; split; [lia|reflexivity]|intros _].
      cbn -[zeroed_entry]. split; [reflexivity|]. split; [apply repeat_length|].
      split.
      * unfold occupied, mem; cbn [cacheMemory].
        induction (Z.to_nat n); [reflexivity|exact IHn0].
      * split; cbn [lruCounter]; [lia|]. unfold mem; cbn [cacheMemory].
        apply Forall_forall; intros e He; apply repeat_spec in He; subst; cbn; lia.
Qed.

Lemma fresh_cache_empty_witness :
  (fst (set_cart_cache_size 2 initial_cache) = 0 <-> 1 <= 2 <= CACHE_MAX_OPEN_FILES) /\
  (1 <= 2 <= CACHE_MAX_OPEN_FILES ->
   fst (init_cart_cache (snd (set_cart_cache_size 2 initial_cache))) = 0 /\
   length (mem (fresh_cache 2)) = Z.to_nat 2 /\
   occupied (fresh_cache 2) = [] /\ counters_bounded (fresh_cache 2)).
Proof. apply fresh_cache_empty; lia. Defined.










Lemma strncmp_strncpy n a r : strncmp_eq n a (strncpy_n n a ++ r) = true.
Proof.
  revert a; induction n as [|n IH]; intros a; [reflexivity|].
  destruct a as [|b t]; cbn [strncpy_n app strncmp_eq].
  - reflexivity.
  - destruct (Byte.eqb b x00) eqn:Eb; cbn [app].
    + apply Byte.byte_dec_bl in Eb; subst b; reflexivity.
    + rewrite (Byte.byte_dec_lb (eq_refl b)). apply IH.
Qed.

Lemma memcpy_at_front dst src n :
  length src = n -> memcpy_at dst 0 src n = src ++ skipn n dst.
Proof.
  intros H; unfold memcpy_at, write_at; cbn [firstn app repeat Nat.sub].
  rewrite firstn_all2 by lia. subst n; reflexivity.
Qed.

Lemma open_pass_range path n i l k :
  open_pass path n i l = Some (Some k) -> (i <= k < i + length l)%nat.
Proof.
  revert i; induction l as [|e t IH]; intros i; cbn [open_pass]; [discriminate|].
  destruct (strncmp_eq n path (filename e)); [discriminate|].
  destruct (flag_eqb (openfile e) NO); [intros E; inversion E; cbn; lia|].
  intros E; apply IH in E; cbn; lia.
Qed.

Section OpenLemmas.
Context {D : Type} `{CartBus D}.

(** The state [open_loop] leaves when the pass picks slot [i]. *)
Lemma open_pick_entry (path : bytes) (st : DriverState D) i :
  (i < length (fileSystem st))%nat ->
  let fd := Z.of_nat i in
  let st' := set_fs st fd (mkFS (memcpy_at (filename (nth i (fileSystem st) closed_entry)) 0
                                  (strncpy_n (S (strlen path)) path) (S (strlen path)))
                               fd 0 0 0 0 YES (incart (nth i (fileSystem st) closed_entry))) in
  is_open (get_fs st' fd) = true /\ filehandle (get_fs st' fd) = fd /\
  fileposition (get_fs st' fd) = 0 /\ filelength (get_fs st' fd) = 0 /\
  strncmp_eq (S (strlen path)) path (filename (get_fs st' fd)) = true /\
  fileTable st' = fileTable st /\ cache st' = cache st /\ device st' = device st.
Proof.
  intros Hi. cbv zeta. unfold get_fs, set_fs; cbn [fileSystem fileTable cache device].
  rewrite Nat2Z.id, nth_update_nth_same by exact Hi. cbn [filehandle fileposition filelength filename].
  repeat split; try reflexivity.
  - unfold is_open; cbn [filehandle openfile]. apply andb_true_intro; split; [apply Z.leb_le; lia|reflexivity].
  - rewrite memcpy_at_front by apply strncpy_n_length. apply strncmp_strncpy.
Qed.

Lemma numFiles_set_fs (st : DriverState D) fd e : numFiles (set_fs st fd e) = numFiles st.
Proof. unfold numFiles, set_fs; cbn [fileSystem]; now rewrite update_nth_length. Qed.

(** A successful open returns an existing entry, open at position 0 with
    length 0, holding the path, and touches neither table, cache nor device. *)
Theorem open_success (path : bytes) (st : DriverState D) :
  fst (cart_open path st) <> -1 ->
  let fd := fst (cart_open path st) in
  let st' := snd (cart_open path st) in
  0 <= fd < numFiles st' /\
  is_open (get_fs st' fd) = true /\ filehandle (get_fs st' fd) = fd /\
  fileposition (get_fs st' fd) = 0 /\ filelength (get_fs st' fd) = 0 /\
  strncmp_eq (S (strlen path)) path (filename (get_fs st' fd)) = true /\
  fileTable st' = fileTable st /\ cache st' = cache st /\ device st' = device st.
Proof.
  unfold cart_open; cbn [open_loop]; cbv zeta.
  destruct (open_pass path (S (strlen path)) 0 (fileSystem st)) as [[i|]|] eqn:E.
  - intros _. apply open_pass_range in E; cbn [fst snd].
    destruct (open_pick_entry path st i ltac:(lia)) as (? & ? & ? & ? & ? & ? & ? & ?).
    repeat split; auto; try lia; rewrite numFiles_set_fs; unfold numFiles; lia.
  - cbn; congruence.
  - destruct (open_pass path (S (strlen path)) 0 (fileSystem (allocateNewFile st)))
      as [[i|]|] eqn:E2; cbn [fst snd]; try congruence.
    intros _. apply open_pass_range in E2.
    destruct (open_pick_entry path (allocateNewFile st) i ltac:(lia))
      as (? & ? & ? & ? & ? & ? & ? & ?).
    repeat split; auto; try lia; rewrite numFiles_set_fs; unfold numFiles; lia.
Qed.

End OpenLemmas.

Lemma open_success_witness :
  let fd := fst (cart_open path_a after_poweron) in
  let st' := snd (cart_open path_a after_poweron) in
  0 <= fd < numFiles st' /\
  is_open (get_fs st' fd) = true /\ filehandle (get_fs st' fd) = fd /\
  fileposition (get_fs st' fd) = 0 /\ filelength (get_fs st' fd) = 0 /\
  strncmp_eq (S (strlen path_a)) path_a (filename (get_fs st' fd)) = true /\
  fileTable st' = fileTable after_poweron /\ cache st' = cache after_poweron /\
  device st' = device after_poweron.
Proof. apply open_success; vm_compute; discriminate. Defined.

Lemma write_at_length_ge {A} (fill : A) dst off src n :
  (length dst <= length (write_at fill dst off src n))%nat.
Proof.
  unfold write_at. rewrite !length_app, length_firstn, repeat_length, length_skipn. lia.
Qed.

Section DriverLemmas.
Context {D : Type} `{CartBus D}.

Lemma bus_state reg buf (st : DriverState D) :
  snd (bus reg buf st) = set_device st (snd (bus_request reg buf (device st))).
Proof. unfold bus. destruct (bus_request reg buf (device st)) as [[r b] d]; reflexivity. Qed.

Lemma load_this_cart_state cart (st : DriverState D) :
  fileSystem (snd (load_this_cart cart st)) = fileSystem st /\
  fileTable (snd (load_this_cart cart st)) = fileTable st.
Proof.
  unfold load_this_cart. pose proof (bus_state (create_cart_opcode CART_OP_LDCART 0 0 cart 0 0) [] st) as B.
  destruct (bus _ _ st) as [[r b] st1]; cbn [snd] in *; subst st1; split; reflexivity.
Qed.

Lemma read_frames_state n tf c f it local (st : DriverState D) :
  fileSystem (snd (read_frames n tf c f it local st)) = fileSystem st /\
  fileTable (snd (read_frames n tf c f it local st)) = fileTable st /\
  (length local <= length (snd (fst (read_frames n tf c f it local st))))%nat.
Proof.
  revert c f it local st; induction n as [|n IH]; intros c f it local st; [cbn; auto|].
  cbn [read_frames].
  destruct (get_cart_cache c f (cache st)) as [[cb|] cs].
  - destruct (IH c f (S it) (write_at None local (it * FRAME_BYTES) (map Some cb) (strlen cb))
                (set_cache st cs)) as (H1 & H2 & H3).
    split; [exact H1|split; [exact H2|]].
    etransitivity; [apply write_at_length_ge|exact H3].
  - destruct (nth it tf (0, 0)) as [pc pf].
    set (st0 := set_cache st cs).
    assert (L : fileSystem (snd (if negb (c =? pc) then (pc, snd (load_this_cart pc st0)) else (c, st0)))
                = fileSystem st /\
                fileTable (snd (if negb (c =? pc) then (pc, snd (load_this_cart pc st0)) else (c, st0)))
                = fileTable st).
    { destruct (negb (c =? pc)); cbn [snd]; [|split; reflexivity].
      destruct (load_this_cart_state pc st0) as [A B]; rewrite A, B; split; reflexivity. }
    destruct (if negb (c =? pc) then _ else _) as [c' st1]; cbn [snd] in L; destruct L as [L1 L2].
    pose proof (bus_state (create_cart_opcode CART_OP_RDFRME 0 0 0 pf 0) (zeros FRAME_BYTES) st1) as B.
    destruct (bus _ _ st1) as [[resp cb] st2]; cbn [snd] in B; subst st2.
    destruct (negb (rt1_ok resp)); [cbn; auto|].
    destruct (IH c' pf (S it) (write_at None local (it * FRAME_BYTES) (map Some cb) (strlen cb))
                (set_device st1 (snd (bus_request (create_cart_opcode CART_OP_RDFRME 0 0 0 pf 0)
                                                  (zeros FRAME_BYTES) (device st1)))))
      as (H1 & H2 & H3).
    split; [rewrite H1; exact L1|split; [rewrite H2; exact L2|]].
    etransitivity; [apply write_at_length_ge|exact H3].
Qed.

Lemma is_open_in_range (st : DriverState D) fd :
  is_open (get_fs st fd) = true -> (Z.to_nat fd < length (fileSystem st))%nat.
Proof.
  unfold get_fs; intros Ho. destruct (Nat.lt_ge_cases (Z.to_nat fd) (length (fileSystem st))); auto.
  rewrite nth_overflow in Ho by lia. discriminate.
Qed.

Lemma get_set_fs_same (st : DriverState D) fd e :
  (Z.to_nat fd < length (fileSystem st))%nat -> get_fs (set_fs st fd e) fd = e.
Proof. intros Hi; unfold get_fs, set_fs; cbn [fileSystem]; apply nth_update_nth_same; exact Hi. Qed.

Lemma open_checks_pass e :
  ((filehandle e <? 0) || flag_eqb (openfile e) NO) = false -> is_open e = true.
Proof.
  unfold is_open; intros Hc; apply orb_false_iff in Hc as [H1 H2].
  apply Z.ltb_ge in H1. apply andb_true_intro; split; [apply Z.leb_le; lia|].
  destruct (openfile e); [reflexivity|discriminate].
Qed.

(** A successful read returns at most [count] and at most the bytes left,
    that many bytes, and advances the position by it. *)
Theorem read_result_bounds (st : DriverState D) (fd count : Z) :
  0 <= fileposition (get_fs st fd) <= filelength (get_fs st fd) ->
  filelength (get_fs st fd) < 2 ^ 32 ->
  fst (fst (cart_read fd count st)) <> -1 ->
  let r := fst (fst (cart_read fd count st)) in
  let st' := snd (cart_read fd count st) in
  0 <= r <= count /\
  r <= filelength (get_fs st fd) - fileposition (get_fs st fd) /\
  length (snd (fst (cart_read fd count st))) = Z.to_nat r /\
  fileposition (get_fs st' fd) = fileposition (get_fs st fd) + r /\
  filelength (get_fs st' fd) = filelength (get_fs st fd) /\
  fileTable st' = fileTable st.
Proof.
  intros Hpl Hlen. unfold cart_read; cbv zeta.
  destruct (count <? 0) eqn:Hc; [cbn; congruence|]; apply Z.ltb_ge in Hc.
  destruct ((filehandle (get_fs st fd) <? 0) || flag_eqb (openfile (get_fs st fd)) NO) eqn:Ho;
    [cbn; congruence|].
  apply open_checks_pass, is_open_in_range in Ho.
  destruct (negb _); [cbn; congruence|].
  destruct (get_file_pieces fd st) as [tf|]; [|cbn; congruence].
  destruct (nth 0 tf (0, 0)) as [c0 f0].
  destruct (load_this_cart_state c0 st) as [L1 L2].
  pose proof (read_frames_state (Z.to_nat (get_num_pieces fd st)) tf c0 f0 0
                (repeat None (Z.to_nat (filelength (get_fs st fd)))) (snd (load_this_cart c0 st)))
    as (R1 & R2 & R3).
  destruct (read_frames _ _ _ _ _ _ _) as [[ok local] st2]; cbn [fst snd] in R1, R2, R3.
  rewrite repeat_length in R3.
  destruct (negb ok); [cbn; congruence|].
  set (pos := fileposition (get_fs st fd)) in *. set (len := filelength (get_fs st fd)) in *.
  assert (Hw : wrap32 (len - pos) = len - pos) by (unfold wrap32; apply Z.mod_small; lia).
  rewrite Hw.
  assert (Hr : (Z.to_nat fd < length (fileSystem st2))%nat) by (rewrite R1, L1; exact Ho).
  destruct (count <=? len - pos) eqn:Hle.
  - apply Z.leb_le in Hle. intros _. cbn [fst snd].
    rewrite !get_set_fs_same by exact Hr. cbn [with_pos_len fileposition filelength].
    unfold set_fs at 1; cbn [fileTable]; rewrite R2, L2.
    assert (Hw2 : wrap32 (pos + count) = pos + count) by (unfold wrap32; apply Z.mod_small; lia).
    rewrite Hw2. repeat split; try lia.
    unfold slice. rewrite length_firstn, length_skipn. lia.
  - apply Z.leb_gt in Hle. destruct (len - pos =? 0) eqn:Hz; [cbn; congruence|].
    intros _. cbn [fst snd].
    rewrite !get_set_fs_same by exact Hr. cbn [with_pos_len fileposition filelength].
    unfold set_fs at 1; cbn [fileTable]; rewrite R2, L2.
    repeat split; try lia.
    unfold slice. rewrite length_firstn, length_skipn. lia.
Qed.

End DriverLemmas.

Lemma read_result_bounds_witness :
  let r := fst (fst (cart_read 0 3 seeked_1)) in
  let st' := snd (cart_read 0 3 seeked_1) in
  0 <= r <= 3 /\
  r <= filelength (get_fs seeked_1 0) - fileposition (get_fs seeked_1 0) /\
  length (snd (fst (cart_read 0 3 seeked_1))) = Z.to_nat r /\
  fileposition (get_fs st' 0) = fileposition (get_fs seeked_1 0) + r /\
  filelength (get_fs st' 0) = filelength (get_fs seeked_1 0) /\
  fileTable st' = fileTable seeked_1.
Proof.
  apply read_result_bounds; [vm_compute; split; discriminate|vm_compute; reflexivity|vm_compute; discriminate].
Defined.

Lemma nth_map_const {A B} (x : B) (l : list A) n : nth n (map (fun _ => x) l) x = x.
Proof. revert n; induction l as [|a t IH]; intros [|n]; cbn; auto. Qed.

Section More.
Context {D : Type} `{CartBus D}.

(** After a successful close the entry is closed, and closing it again fails
    without change. *)
Theorem close_then_closed (st : DriverState D) (fd : Z) :
  fst (cart_close fd st) = 0 ->
  let st' := snd (cart_close fd st) in
  is_open (get_fs st' fd) = false /\ cart_close fd st' = (-1, st').
Proof.
  unfold cart_close; destruct (is_open (get_fs st fd)) eqn:Ho; cbn [fst snd]; [|discriminate].
  intros _. apply is_open_in_range in Ho.
  rewrite get_set_fs_same by exact Ho. cbn. split; reflexivity.
Qed.

Lemma zero_carts_cache l (st : DriverState D) :
  cache (snd (zero_carts l st)) = cache st.
Proof.
  revert st; induction l as [|i t IH]; intros st; [reflexivity|]. cbn [zero_carts].
  pose proof (bus_state (create_cart_opcode CART_OP_LDCART 0 0 i 0 0) [] st) as B1.
  destruct (bus _ _ st) as [[r1 b1] st1]; cbn [snd] in B1; subst st1.
  destruct (negb (rt1_ok r1)); [reflexivity|].
  match goal with |- context [bus ?reg ?b ?s] => pose proof (bus_state reg b s) as B2;
    destruct (bus reg b s) as [[r2 b2] st2] end.
  cbn [snd] in B2; subst st2.
  destruct (negb (rt1_ok r2)); [reflexivity|]. rewrite IH; reflexivity.
Qed.

Lemma poweron_cache_init (st : DriverState D) :
  fst (cart_poweron st) = 0 -> cacheInit (cache (snd (cart_poweron st))) = YES.
Proof.
  unfold cart_poweron.
  destruct (init_cart_cache (cache st)) as [cr c] eqn:Ei.
  destruct (negb (cr =? 0)) eqn:Ecr; cbv beta iota; [discriminate|].
  assert (Hc : cacheInit c = YES).
  { apply negb_false_iff, Z.eqb_eq in Ecr; subst cr. unfold init_cart_cache in Ei.
    destruct (cacheInit (cache st)), (cacheMemory (cache st)); inversion Ei; reflexivity. }
  destruct (negb (numFiles _ =? 0)); cbv beta iota; [discriminate|].
  match goal with |- context [bus ?reg ?b ?s] => pose proof (bus_state reg b s) as B;
    destruct (bus reg b s) as [[r b1] st1] end.
  cbn [snd] in B; subst st1.
  destruct (negb (rt1_ok r)); cbv beta iota; [discriminate|]. intros _.
  rewrite zero_carts_cache. exact Hc.
Qed.

Lemma poweron_fails_when_cache_init (st : DriverState D) :
  cacheInit (cache st) = YES -> fst (cart_poweron st) = -1.
Proof. unfold cart_poweron, init_cart_cache at 1; intros E; rewrite E; reflexivity. Qed.

Lemma poweroff_state (st : DriverState D) :
  let st' := snd (cart_poweroff st) in
  fileSystem st' = map (fun _ => closed_entry) (fileSystem st) /\
  fileTable st' = poweron_table /\
  cacheMemory (cache st') = None /\ cacheInit (cache st') = cacheInit (cache st).
Proof.
  unfold cart_poweroff, close_cart_cache; cbn [negb Z.eqb].
  match goal with |- context [bus ?reg ?b ?s] => pose proof (bus_state reg b s) as B;
    destruct (bus reg b s) as [[r b1] st1] end.
  cbn [snd] in B; subst st1. repeat split; reflexivity.
Qed.

(** A power cycle is refused: after a successful power-on, powering on
    again fails, also after a power-off (the cache stays marked initialised). *)
Theorem poweron_once (st : DriverState D) :
  fst (cart_poweron st) = 0 ->
  let st1 := snd (cart_poweron st) in
  fst (cart_poweron st1) = -1 /\ fst (cart_poweron (snd (cart_poweroff st1))) = -1.
Proof.
  intros Hok. cbv zeta. pose proof (poweron_cache_init st Hok) as Hi.
  split; apply poweron_fails_when_cache_init; [exact Hi|].
  destruct (poweroff_state (snd (cart_poweron st))) as (_ & _ & _ & E). rewrite E; exact Hi.
Qed.

(** After power-off no file is open and every allocation slot is free:
    close, read and write fail on every handle. *)
Theorem poweroff_closes_all (st : DriverState D) (fd count : Z) (buf : bytes) :
  let st' := snd (cart_poweroff st) in
  numFiles st' = numFiles st /\
  count_free st' = CART_MAX_CARTRIDGES * CART_CARTRIDGE_SIZE /\
  fst (cart_close fd st') = -1 /\
  fst (fst (cart_read fd count st')) = -1 /\
  fst (cart_write fd buf count st') = -1.
Proof.
  cbv zeta. destruct (poweroff_state st) as (F & T & _ & _).
  set (st' := snd (cart_poweroff st)) in *.
  assert (G : get_fs st' fd = closed_entry) by (unfold get_fs; rewrite F; apply nth_map_const).
  split; [unfold numFiles; rewrite F, length_map; reflexivity|].
  split; [unfold count_free; rewrite T; vm_compute; reflexivity|].
  unfold cart_close, cart_read, cart_write. rewrite G. cbn [is_open filehandle openfile].
  destruct (count <? 0); repeat split; reflexivity.
Qed.

(** Reads and writes through a handle whose entry is not open, whose
    stored handle is another one, or with a negative count fail and change
    nothing. *)
Theorem rw_rejected (st : DriverState D) (fd count : Z) (buf : bytes) :
  is_open (get_fs st fd) = false \/ filehandle (get_fs st fd) <> fd \/ count < 0 ->
  cart_read fd count st = (-1, [], st) /\ cart_write fd buf count st = (-1, st).
Proof.
  intros Hbad. unfold cart_read, cart_write; cbv zeta.
  destruct (count <? 0) eqn:Hc; [split; reflexivity|]. apply Z.ltb_ge in Hc.
  destruct ((filehandle (get_fs st fd) <? 0) || flag_eqb (openfile (get_fs st fd)) NO) eqn:Ho;
    [split; reflexivity|].
  pose proof (open_checks_pass _ Ho) as Hopen.
  destruct Hbad as [Hb|[Hb|Hb]]; [congruence| |lia].
  replace (filehandle (get_fs st fd) =? fd) with false by (symmetry; apply Z.eqb_neq; exact Hb).
  rewrite andb_false_r; split; reflexivity.
Qed.

End More.

Lemma rw_rejected_witness :
  cart_read 0 5 a_closed_b_open = (-1, [], a_closed_b_open) /\
  cart_write 0 hello 5 a_closed_b_open = (-1, a_closed_b_open).
Proof. apply rw_rejected. left; vm_compute; reflexivity. Defined.

Lemma poweron_once_witness :
  let st1 := snd (cart_poweron (process_start 2)) in
  fst (cart_poweron st1) = -1 /\ fst (cart_poweron (snd (cart_poweroff st1))) = -1.
Proof. apply poweron_once; vm_compute; reflexivity. Defined.

Lemma close_then_closed_witness :
  let st' := snd (cart_close 0 opened_a) in
  is_open (get_fs st' 0) = false /\ cart_close 0 st' = (-1, st').
Proof. apply close_then_closed; vm_compute; reflexivity. Defined.

Lemma strncmp_empty s : strncmp_eq 1 [] s = Nat.eqb (strlen s) 0.
Proof.
  destruct s as [|b t]; [reflexivity|]. cbn [strncmp_eq strlen].
  destruct (Byte.eqb b x00) eqn:E1; destruct (Byte.eqb x00 b) eqn:E2; try reflexivity.
  - apply Byte.byte_dec_bl in E1; subst b; discriminate.
  - apply Byte.byte_dec_bl in E2; subst b; discriminate.
Qed.

Lemma open_pass_empty l i k :
  closed_names_empty l = true -> open_pass [] 1 i l <> Some (Some k).
Proof.
  revert i; induction l as [|e t IH]; intros i Hl; cbn [open_pass]; [discriminate|].
  unfold closed_names_empty in Hl; cbn [forallb] in Hl; apply andb_prop in Hl as [He Ht].
  rewrite strncmp_empty. destruct (Nat.eqb (strlen (filename e)) 0) eqn:Es; [discriminate|].
  rewrite orb_false_r in He. destruct (openfile e); [|discriminate]. cbn [flag_eqb].
  exact (IH _ Ht).
Qed.

Lemma closed_names_empty_update n f l :
  closed_names_empty l = true ->
  (forall x, flag_eqb (openfile (f x)) YES || Nat.eqb (strlen (filename (f x))) 0 = true) ->
  closed_names_empty (update_nth n f l) = true.
Proof.
  unfold closed_names_empty. revert n; induction l as [|x t IH]; intros [|n] Hl Hf;
    cbn [update_nth forallb] in *; [reflexivity|reflexivity| |];
    apply andb_prop in Hl as [Hx Ht].
  - rewrite Hf, Ht; reflexivity.
  - rewrite Hx; cbn [andb]. exact (IH n Ht Hf).
Qed.

Section Names.
Context {D : Type} `{CartBus D}.

(** Opening the empty path fails while every closed entry has an empty name. *)
Theorem open_empty_path_fails (st : DriverState D) :
  closed_names_empty (fileSystem st) = true -> fst (cart_open [] st) = -1.
Proof.
  intros Hn. unfold cart_open; cbn [open_loop]; cbv zeta. cbn [strlen].
  destruct (open_pass [] 1 0 (fileSystem st)) as [[i|]|] eqn:E.
  - exfalso; exact (open_pass_empty _ _ _ Hn E).
  - reflexivity.
  - assert (Hn' : closed_names_empty (fileSystem (allocateNewFile st)) = true).
    { unfold allocateNewFile, closed_names_empty in *; cbn [fileSystem].
      rewrite forallb_app, Hn; reflexivity. }
    destruct (open_pass [] 1 0 (fileSystem (allocateNewFile st))) as [[i|]|] eqn:E2;
      [exfalso; exact (open_pass_empty _ _ _ Hn' E2)|reflexivity|reflexivity].
Qed.

Lemma closed_names_get_fs (st : DriverState D) fd :
  closed_names_empty (fileSystem st) = true ->
  flag_eqb (openfile (get_fs st fd)) YES || Nat.eqb (strlen (filename (get_fs st fd))) 0 = true.
Proof.
  unfold get_fs, closed_names_empty; intros Hl.
  destruct (Nat.lt_ge_cases (Z.to_nat fd) (length (fileSystem st))) as [Hi|Hi].
  - rewrite forallb_forall in Hl; apply Hl, nth_In, Hi.
  - rewrite nth_overflow by exact Hi; reflexivity.
Qed.

(** The names of closed entries stay empty under open, close and seek. *)
Theorem closed_names_preserved (st : DriverState D) (path : bytes) (fd loc : Z) :
  closed_names_empty (fileSystem st) = true ->
  closed_names_empty (fileSystem (snd (cart_open path st))) = true /\
  closed_names_empty (fileSystem (snd (cart_close fd st))) = true /\
  closed_names_empty (fileSystem (snd (cart_seek fd loc st))) = true.
Proof.
  intros Hn. split; [|split].
  - unfold cart_open; cbn [open_loop]; cbv zeta.
    assert (Hn' : closed_names_empty (fileSystem (allocateNewFile st)) = true).
    { unfold allocateNewFile, closed_names_empty in *; cbn [fileSystem].
      rewrite forallb_app, Hn; reflexivity. }
    destruct (open_pass _ _ 0 (fileSystem st)) as [[i|]|]; cbn [snd];
      [unfold set_fs; cbn [fileSystem]; apply closed_names_empty_update; [exact Hn|reflexivity]
      |exact Hn|].
    destruct (open_pass _ _ 0 (fileSystem (allocateNewFile st))) as [[i|]|]; cbn [snd];
      [unfold set_fs; cbn [fileSystem]; apply closed_names_empty_update; [exact Hn'|reflexivity]
      |exact Hn'|exact Hn'].
  - unfold cart_close. destruct (is_open (get_fs st fd)); cbn [snd]; [|exact Hn].
    unfold set_fs; cbn [fileSystem]. apply closed_names_empty_update; [exact Hn|].
    intros _. cbn [openfile filename flag_eqb orb].
    destruct (filename (get_fs st fd)); reflexivity.
  - unfold cart_seek. destruct (_ || _); cbn [snd]; [exact Hn|].
    unfold set_fs; cbn [fileSystem]. apply closed_names_empty_update; [exact Hn|].
    intros _. exact (closed_names_get_fs st fd Hn).
Qed.

End Names.

Lemma closed_names_preserved_witness :
  closed_names_empty (fileSystem (snd (cart_open path_a a_closed_b_open))) = true /\
  closed_names_empty (fileSystem (snd (cart_close 1 a_closed_b_open))) = true /\
  closed_names_empty (fileSystem (snd (cart_seek 1 0 a_closed_b_open))) = true.
Proof. apply closed_names_preserved; vm_compute; reflexivity. Defined.

Lemma open_empty_path_fails_witness : fst (cart_open [] a_closed_b_open) = -1.
Proof. apply open_empty_path_fails; vm_compute; reflexivity. Defined.

(** Seek, then read on an open, non-empty file (the controller answering
    every request with success). *)
Theorem seek_then_read (st : DriverState SimDevice) (fd loc count : Z) :
  is_open (get_fs st fd) = true -> filehandle (get_fs st fd) = fd ->
  0 <= loc <= filelength (get_fs st fd) -> 1 <= filelength (get_fs st fd) < 2 ^ 32 ->
  0 <= count ->
  fst (cart_seek fd loc st) = 0 /\
  fst (fst (cart_read fd count (snd (cart_seek fd loc st))))
  = if (0 <? count) && (loc =? filelength (get_fs st fd)) then -1
    else Z.min count (filelength (get_fs st fd) - loc).
Proof.
  intros Ho Hfd Hloc Hlen Hc.
  pose proof (is_open_in_range st fd Ho) as Hr.
  unfold cart_seek.
  replace ((loc <? 0) || (filelength (get_fs st fd) <? loc)) with false
    by (symmetry; apply orb_false_iff; split; [apply Z.ltb_ge|apply Z.ltb_ge]; lia).
  cbn [fst snd]. split; [reflexivity|].
  set (e := get_fs st fd) in *.
  set (st' := set_fs st fd (with_pos_len e loc (filelength e))).
  assert (G : get_fs st' fd = with_pos_len e loc (filelength e)) by (apply get_set_fs_same; exact Hr).
  assert (Ho' : is_open (get_fs st' fd) = true) by (rewrite G; exact Ho).
  unfold cart_read; cbv zeta.
  replace (count <? 0) with false by (symmetry; apply Z.ltb_ge; lia).
  rewrite (is_open_checks _ Ho'), (is_open_numFiles st' fd Ho'), G. cbn [filehandle with_pos_len].
  fold e. rewrite Hfd, Z.eqb_refl. cbn [andb negb].
  unfold get_file_pieces. rewrite G. cbn [filelength with_pos_len].
  replace (filelength e <? 1) with false by (symmetry; apply Z.ltb_ge; lia).
  destruct (nth 0 (owned_by st' fd) (0, 0)) as [c0 f0].
  pose proof (sim_read_frames_ok (Z.to_nat (get_num_pieces fd st')) (owned_by st' fd) c0 f0 0
                (repeat None (Z.to_nat (filelength e))) (snd (load_this_cart c0 st'))) as Ok.
  destruct (read_frames _ _ _ _ _ _ _) as [[ok local] st2]; cbn [fst] in Ok; subst ok.
  cbn [negb fileposition]. 
  assert (Hw : wrap32 (filelength e - loc) = filelength e - loc) by (unfold wrap32; apply Z.mod_small; lia).
  cbn [fileposition with_pos_len]. rewrite Hw.
  destruct (count <=? filelength e - loc) eqn:E1.
  - apply Z.leb_le in E1. cbn [fst].
    destruct (0 <? count) eqn:E2, (loc =? filelength e) eqn:E3; cbn [andb];
      rewrite ?Z.ltb_lt, ?Z.ltb_ge, ?Z.eqb_eq, ?Z.eqb_neq in *; try lia.
  - apply Z.leb_gt in E1.
    replace (0 <? count) with true by (symmetry; apply Z.ltb_lt; lia). cbn [andb].
    destruct (loc =? filelength e) eqn:E3.
    + apply Z.eqb_eq in E3. rewrite E3, Z.sub_diag. reflexivity.
    + apply Z.eqb_neq in E3. replace (filelength e - loc =? 0) with false
        by (symmetry; apply Z.eqb_neq; lia). cbn [fst]. lia.
Qed.

Lemma seek_then_read_witness :
  fst (cart_seek 0 2 wrote_hello) = 0 /\
  fst (fst (cart_read 0 10 (snd (cart_seek 0 2 wrote_hello))))
  = if (0 <? 10) && (2 =? filelength (get_fs wrote_hello 0)) then -1
    else Z.min 10 (filelength (get_fs wrote_hello 0) - 2).
Proof.
  apply seek_then_read; [vm_compute; reflexivity|vm_compute; reflexivity| | |lia];
    (change (filelength (get_fs wrote_hello 0)) with 5; lia).
Defined.

(** [client_socket] stays -1: every request but an INIT on an uninitialised
    client fails and leaves buffer and state as they were. *)
Theorem client_request_fails (reg : Z) (buf : bytes) (st : ClientState) :
  client_socket st = -1 ->
  (extract_cart_opcode reg CART_REG_KY1 mod 256 <> CART_OP_INITMS \/ initialized st = YES) ->
  client_cart_bus_request reg buf st = (FAIL, buf, st).
Proof.
  destruct st as [sock ini k]; cbn [client_socket initialized]. intros -> Hr.
  unfold client_cart_bus_request; cbn [client_socket initialized conn]. cbv zeta.
  rewrite Z.eqb_refl; cbn [negb].
  destruct (extract_cart_opcode reg CART_REG_KY1 mod 256 =? CART_OP_INITMS) eqn:Ei.
  - apply Z.eqb_eq in Ei. destruct Hr as [Hr| ->]; [contradiction|]. reflexivity.
  - destruct (_ || _); [reflexivity|].
    destruct (_ =? CART_OP_RDFRME); [reflexivity|].
    destruct (_ =? CART_OP_WRFRME); [reflexivity|].
    destruct (_ =? CART_OP_POWOFF); reflexivity.
Qed.

Lemma client_request_fails_witness :
  client_cart_bus_request (create_cart_opcode CART_OP_RDFRME 0 0 0 5 0) [] after_init
  = (FAIL, [], after_init).
Proof.
  apply client_request_fails; [reflexivity|]. right; reflexivity.
Defined.
